(** * flux-local source controller: chart dependency build and OCI fetch

    A shallow embedding of

      - [flux_local/source_controller/helm_deps.py]
        ([build_helm_dependencies], [_build_chart_dependencies]) and
      - [flux_local/source_controller/oci.py] ([fetch_oci]),

    together with the properties the specification states about them.

    The Python coroutines run in an exception-and-state monad.  The state
    holds the file system, the object heap and the trace of observable
    effects (log records, external command invocations, OCI pulls).
    External tools (PyYAML, [helm], [oras]) are collaborators whose
    outcome is supplied by a record of oracles. *)

From Stdlib Require Import List String Ascii ZArith Bool Lia PrimFloat.
Import ListNotations.
Open Scope string_scope.
Open Scope list_scope.

Set Warnings "-register-all".

(* ===================================================================== *)
(** ** Paths and the file system *)

(** A resolved [pathlib.Path]: its components below the root.  [Path(s)]
    and [str(p)] convert between this and the textual form, so a
    [local_path] string is carried around as the path it denotes. *)
Definition path := list string.

Definition path_eq_dec : forall p q : path, {p = q} + {p <> q} :=
  list_eq_dec string_dec.

(** [p / name] *)
Definition child (p : path) (name : string) : path := p ++ [name].

(** [p.parent]; the root is its own parent. *)
Definition parent (p : path) : path := removelast p.

(** [str(p)] *)
Definition str_path (p : path) : string :=
  match p with
  | [] => "/"
  | _ => String.concat "" (map (fun c => String.append "/" c) p)
  end.

(** What [read_text(encoding="utf-8")] finds in a regular file. *)
Inductive file_data :=
| Text (s : string)
| Undecodable.

(** A directory lists its entries in [scandir] order. *)
Inductive node :=
| File (d : file_data)
| Dir (entries : list (string * node)).

Fixpoint find_entry (name : string) (es : list (string * node)) : option node :=
  match es with
  | [] => None
  | (n, c) :: r => if String.eqb n name then Some c else find_entry name r
  end.

Fixpoint lookup (n : node) (p : path) : option node :=
  match p with
  | [] => Some n
  | c :: q =>
      match n with
      | Dir es =>
          match find_entry c es with
          | Some m => lookup m q
          | None => None
          end
      | File _ => None
      end
  end.

(** [Path.exists], for a path the process is allowed to examine: the
    tree holds what can be reached.  A parent directory that may not be
    searched, on which [Path.exists] raises [PermissionError], has no
    counterpart in the tree. *)
Definition path_exists (root : node) (p : path) : bool :=
  match lookup root p with Some _ => true | None => false end.

Definition CHART_YAML : string := "Chart.yaml".

(** The recursive selector behind [rglob("Chart.yaml")]: every directory
    of the tree in preorder, the starting directory first, each one
    yielding its [Chart.yaml] entry (file or directory) when there is
    one.  A path that is not a directory selects nothing. *)
Fixpoint select_from (p : path) (n : node) : list path :=
  match n with
  | File _ => []
  | Dir es =>
      (match find_entry CHART_YAML es with
       | Some _ => [child p CHART_YAML]
       | None => []
       end)
      ++ flat_map (fun e => select_from (child p (fst e)) (snd e)) es
  end.

(** The selector never yields a path twice: it keeps the set [yielded] of
    the paths it has produced and passes over any it meets again. *)
Fixpoint unique_from (yielded : list path) (l : list path) : list path :=
  match l with
  | [] => []
  | p :: r =>
      if in_dec path_eq_dec p yielded then unique_from yielded r
      else p :: unique_from (p :: yielded) r
  end.

(** [list(path.rglob("Chart.yaml"))] *)
Definition rglob (root : node) (p : path) : list path :=
  match lookup root p with
  | Some n => unique_from [] (select_from p n)
  | None => []
  end.

(** Does any directory of the tree have an entry called [Chart.yaml]? *)
Fixpoint has_chart_yaml (n : node) : bool :=
  match n with
  | File _ => false
  | Dir es =>
      existsb (fun e => String.eqb (fst e) CHART_YAML || has_chart_yaml (snd e)) es
  end.

(* ===================================================================== *)
(** ** Values produced by [yaml.safe_load] *)

Inductive yaml :=
| YNone
| YBool (b : bool)
| YInt (z : Z)
| YFloat (f : float)
| YStr (s : string)
| YBytes (s : string)
| YDate (s : string)
| YList (l : list yaml)
| YDict (items : list (yaml * yaml))
| YSet (l : list yaml).

(** Python truth value, as tested by [if not dependencies]. *)
Definition truthy (v : yaml) : bool :=
  match v with
  | YNone => false
  | YBool b => b
  | YInt z => negb (Z.eqb z 0)
  | YFloat f => negb (PrimFloat.eqb f PrimFloat.zero)
  | YStr s => negb (String.eqb s "")
  | YBytes s => negb (String.eqb s "")
  | YDate _ => true
  | YList l => match l with [] => false | _ => true end
  | YDict d => match d with [] => false | _ => true end
  | YSet l => match l with [] => false | _ => true end
  end.

(** [len(v)]; [None] where Python raises [TypeError]. *)
Definition py_len (v : yaml) : option Z :=
  match v with
  | YStr s => Some (Z.of_nat (String.length s))
  | YBytes s => Some (Z.of_nat (String.length s))
  | YList l => Some (Z.of_nat (List.length l))
  | YDict d => Some (Z.of_nat (List.length d))
  | YSet l => Some (Z.of_nat (List.length l))
  | _ => None
  end.

Definition is_key (key : string) (k : yaml) : bool :=
  match k with
  | YStr s => String.eqb s key
  | _ => false
  end.

(** [d.get(key)] on the items of a dict whose keys are pairwise distinct. *)
Fixpoint dict_lookup (d : list (yaml * yaml)) (key : string) : option yaml :=
  match d with
  | [] => None
  | (k, v) :: r => if is_key key k then Some v else dict_lookup r key
  end.

(** [d.get(key, default)] *)
Definition dict_get (d : list (yaml * yaml)) (key : string) (default : yaml) : yaml :=
  match dict_lookup d key with
  | Some v => v
  | None => default
  end.

(* ===================================================================== *)
(** ** Exceptions *)

(** The exception classes that occur.  [CancelledError] derives from
    [BaseException] only; all others derive from [Exception]. *)
Inductive exc_class :=
| YAMLError
| OSError
| UnicodeDecodeError
| ValueError
| TypeError
| RecursionError
| HelmException
| CancelledError.

(** A raised exception: class, [str(e)], and [__cause__]. *)
Inductive exn :=
| Exc (c : exc_class) (msg : string) (cause : option exn).

Definition exn_class (e : exn) : exc_class := let 'Exc c _ _ := e in c.
Definition str_exn (e : exn) : string := let 'Exc _ m _ := e in m.
Definition exn_cause (e : exn) : option exn := let 'Exc _ _ c := e in c.

(** [isinstance(e, yaml.YAMLError)] *)
Definition is_YAMLError (e : exn) : bool :=
  match exn_class e with YAMLError => true | _ => false end.

(** [isinstance(e, Exception)] *)
Definition is_Exception (e : exn) : bool :=
  match exn_class e with CancelledError => false | _ => true end.

Inductive result (A : Type) :=
| Ok (a : A)
| Raise (e : exn).
Arguments Ok {A} a.
Arguments Raise {A} e.

(* ===================================================================== *)
(** ** Manifest objects and artifacts *)

(** Modelled from the spec: the manifest layer's [OCIRepository] object
    (kind-specific fields URL and ref/version, identified by namespace
    and name), declared in [manifest.py]. *)
Module OCIRepository.
Record OCIRepositoryRef := mk_ref {
  digest : option string;
  tag : option string
}.
Record t := mk {
  name : string;
  namespace : string;
  url : string;
  ref : option OCIRepositoryRef
}.
End OCIRepository.

(** Modelled from the spec: the OCI [Artifact], a local path plus the
    key it was produced from, with the three fields [fetch_oci] sets;
    declared in [artifact.py]. *)
Module OCIArtifact.
Record t := mk {
  url : string;
  ref : option OCIRepository.OCIRepositoryRef;
  local_path : path
}.
End OCIArtifact.

(** Modelled from the spec: an invocation of an external tool, built as
    [command.Command(args, cwd=..., exc=...)]; declared in
    [command.py]. *)
Record Command := mk_Command {
  cmd : list string;
  cwd : path;
  exc : exc_class
}.

(* ===================================================================== *)
(** ** Observable effects and program state *)

Inductive level := DEBUG | INFO | WARNING | ERROR.

(** The argument tuple of a log record. *)
Inductive log_arg :=
| APath (p : path)
| AInt (n : Z)
| AYaml (v : yaml)
| AExn (e : exn)
| AObj (o : OCIRepository.t)
| AStrs (l : list string).

Inductive event :=
| EvLog (lv : level) (fmt : string) (args : list log_arg)
| EvRun (c : Command) (r : result string)
| EvPull (target : string) (outdir : path) (r : result (list string)).

(** A Python reference to a manifest object. *)
Definition loc := nat.

Record State := mk_State {
  fs : node;
  heap : loc -> OCIRepository.t;
  trace : list event
}.

Definition emit (ev : event) (s : State) : State :=
  {| fs := fs s; heap := heap s; trace := trace s ++ [ev] |}.

Definition set_fs (n : node) (s : State) : State :=
  {| fs := n; heap := heap s; trace := trace s |}.

(** What a call of [client.pull(...)] hands back.  The synchronous
    client returns the list of pulled files itself, a plain value; an
    asynchronous client returns an awaitable, which yields the list or
    raises when it is awaited. *)
Inductive pulled :=
| Plain (res : list string)
| Awaitable (r : result (list string)).

(** The external collaborators, each an operation with a success value
    or a raised error.  [yaml_safe_load] is PyYAML and [command_run] is
    [command.run]; [helm dependency build] leaves the descriptors of the
    tree alone (it writes [Chart.lock] and [charts/*.tgz] beside them,
    and the list of descriptors is taken before the first invocation),
    so its oracle yields an outcome only.  [oras_pull] is the call
    [client.pull(target=..., outdir=...)]: it raises or hands back a
    [pulled] value, and leaves the tree it has written.  [cache_dir] and
    [cache_key] are the root of the artifact cache and its stable hash.
    [version] and [versioned_url] are the read-only accessor methods of
    the manifest object. *)
Record Collaborators := {
  yaml_safe_load : string -> result yaml;
  command_run : Command -> State -> result string;
  oras_pull : string -> path -> State -> result pulled * node;
  cache_dir : path;
  cache_key : string -> option string -> string;
  version : OCIRepository.t -> option string;
  versioned_url : OCIRepository.t -> string
}.

(* ===================================================================== *)
(** ** The monad of coroutines *)

Definition M (A : Type) : Type := State -> result A * State.

Definition ret {A} (a : A) : M A := fun s => (Ok a, s).

Definition raise {A} (e : exn) : M A := fun s => (Raise e, s).

Definition bind {A B} (m : M A) (k : A -> M B) : M B :=
  fun s =>
    match m s with
    | (Ok a, s') => k a s'
    | (Raise e, s') => (Raise e, s')
    end.

(** [try: body except ... as e: handler e] *)
Definition try_except {A} (body : M A) (handler : exn -> M A) : M A :=
  fun s =>
    match body s with
    | (Ok a, s') => (Ok a, s')
    | (Raise e, s') => handler e s'
    end.

Declare Scope monad_scope.
Delimit Scope monad_scope with monad.
Notation "x <- m ;; k" := (bind m (fun x => k))
  (at level 61, m at next level, right associativity) : monad_scope.
Notation "m ;; k" := (bind m (fun _ => k))
  (at level 61, right associativity) : monad_scope.
Open Scope monad_scope.

(** [_LOGGER.<level>(fmt, *args)] *)
Definition log (lv : level) (fmt : string) (args : list log_arg) : M unit :=
  fun s => (Ok tt, emit (EvLog lv fmt args) s).

(** [for x in xs: await body(x)] *)
Fixpoint for_each {A} (body : A -> M unit) (xs : list A) : M unit :=
  match xs with
  | [] => ret tt
  | x :: r => body x ;; for_each body r
  end.

(* ===================================================================== *)
(** ** [helm_deps.py] *)

Definition HELM_BIN : string := "helm".

(** [chart_file.read_text(encoding="utf-8")] *)
Definition read_text (p : path) : M string :=
  fun s =>
    match lookup (fs s) p with
    | Some (File (Text t)) => (Ok t, s)
    | Some (File Undecodable) =>
        (Raise (Exc UnicodeDecodeError "'utf-8' codec can't decode byte" None), s)
    | Some (Dir _) =>
        (Raise (Exc OSError "[Errno 21] Is a directory" None), s)
    | None =>
        (Raise (Exc OSError "[Errno 2] No such file or directory" None), s)
    end.

Section HelmDeps.
Context (E : Collaborators).

(** [yaml.safe_load(chart_content)] *)
Definition safe_load (text : string) : M yaml :=
  fun s => (yaml_safe_load E text, s).

(** [await command.run(cmd)]: the invocation and its outcome enter the
    trace. *)
Definition run (c : Command) : M string :=
  fun s => let r := command_run E c s in (r, emit (EvRun c r) s).

(** [len(dependencies)] *)
Definition len (v : yaml) : M Z :=
  match py_len v with
  | Some n => ret n
  | None => raise (Exc TypeError "object has no len()" None)
  end.

(** The command built for a chart directory. *)
Definition dependency_build (chart_dir : path) : Command :=
  {| cmd := [HELM_BIN; "dependency"; "build"];
     cwd := chart_dir;
     exc := HelmException |}.

(** The body of the [try] statement of [_build_chart_dependencies]. *)
Definition try_body (chart_file : path) : M unit :=
  let chart_dir := parent chart_file in
  chart_content <- read_text chart_file ;;
  chart_data <- safe_load chart_content ;;
  match chart_data with
  | YDict d =>
      let dependencies := dict_get d "dependencies" (YList []) in
      if negb (truthy dependencies) then
        log DEBUG "No dependencies found in %s" [APath chart_file]
      else
        n <- len dependencies ;;
        log INFO "Found %d dependencies in chart %s, building dependencies"
            [AInt n; AYaml (dict_get d "name" (YStr "unknown"))] ;;
        _ <- run (dependency_build chart_dir) ;;
        log INFO "Successfully built dependencies for chart %s at %s"
            [AYaml (dict_get d "name" (YStr "unknown")); APath chart_dir]
  | _ =>
      log WARNING "Invalid Chart.yaml format in %s" [APath chart_file]
  end.

(** The two [except] clauses, in order; an exception neither clause
    matches propagates. *)
Definition handler (chart_file : path) (e : exn) : M unit :=
  let chart_dir := parent chart_file in
  if is_YAMLError e then
    log WARNING "Failed to parse Chart.yaml at %s: %s" [APath chart_file; AExn e]
  else if is_Exception e then
    log ERROR "Failed to build dependencies for chart at %s: %s"
        [APath chart_dir; AExn e] ;;
    raise (Exc HelmException
             (String.append "Failed to build dependencies for chart at "
                (String.append (str_path chart_dir)
                   (String.append ": " (str_exn e))))
             (Some e))
  else raise e.

Definition _build_chart_dependencies (chart_file : path) : M unit :=
  try_except (try_body chart_file) (handler chart_file).

Definition build_helm_dependencies (local_path : path) : M unit :=
  fun s =>
    if negb (path_exists (fs s) local_path) then
      log DEBUG "Path %s does not exist, skipping dependency build"
          [APath local_path] s
    else
      let chart_files := rglob (fs s) local_path in
      match chart_files with
      | [] => log DEBUG "No Chart.yaml files found in %s" [APath local_path] s
      | _ =>
          (log DEBUG "Found %d Chart.yaml files in %s"
               [AInt (Z.of_nat (List.length chart_files)); APath local_path] ;;
           for_each _build_chart_dependencies chart_files) s
      end.

End HelmDeps.

(* ===================================================================== *)
(** ** The artifact cache *)

(** A chain of fresh, empty directories [c1/c2/.../cn]. *)
Fixpoint fresh_dirs (p : path) : node :=
  match p with
  | [] => Dir []
  | c :: q => Dir [(c, fresh_dirs q)]
  end.

Fixpoint replace_entry (name : string) (m : node) (es : list (string * node))
  : list (string * node) :=
  match es with
  | [] => []
  | (n, c) :: r =>
      if String.eqb n name then (n, m) :: r else (n, c) :: replace_entry name m r
  end.

(** [mkdir(parents=True, exist_ok=True)]; [None] when something that is
    not a directory is in the way. *)
Fixpoint mkdir_p (n : node) (p : path) : option node :=
  match p with
  | [] => match n with Dir _ => Some n | File _ => None end
  | c :: q =>
      match n with
      | File _ => None
      | Dir es =>
          match find_entry c es with
          | Some m =>
              match mkdir_p m q with
              | Some m' => Some (Dir (replace_entry c m' es))
              | None => None
              end
          | None => Some (Dir (es ++ [(c, fresh_dirs q)]))
          end
      end
  end.

Section Cache.
Context (E : Collaborators).

(** Modelled from the spec: the destination directory the cache assigns
    to a (url, version) key, derived from a stable hash of the key
    ([cache.py]). *)
Definition repo_path (url : string) (ver : option string) : path :=
  child (cache_dir E) (cache_key E url ver).

(** Modelled from the spec: [cache.get_repo_path(url, version)] is
    deterministic in its key and lazily creates the destination
    directory, parents included; creation is idempotent. *)
Definition get_repo_path (url : string) (ver : option string) : M path :=
  fun s =>
    let p := repo_path url ver in
    match mkdir_p (fs s) p with
    | Some n => (Ok p, set_fs n s)
    | None => (Raise (Exc OSError "[Errno 17] File exists" None), s)
    end.

End Cache.

(* ===================================================================== *)
(** ** [oci.py] *)

Section Oci.
Context (E : Collaborators).

(** Reading the object behind a reference: [obj.url], [obj.ref], and
    the accessor methods [obj.version()], [obj.versioned_url()]. *)
Definition attr {A} (obj : loc) (f : OCIRepository.t -> A) : M A :=
  fun s => (Ok (f (heap s obj)), s).

(** What the pull itself came to: the files it fetched, or its error. *)
Definition pull_outcome (r : result pulled) : result (list string) :=
  match r with
  | Raise e => Raise e
  | Ok (Plain res) => Ok res
  | Ok (Awaitable r') => r'
  end.

(** The [TypeError] of [await] on a value that is not awaitable. *)
Definition not_awaitable : exn :=
  Exc TypeError "object list can't be used in 'await' expression" None.

(** [await v] for the value [v] the call handed back: a plain list
    cannot be awaited. *)
Definition await_pulled (r : result pulled) : result (list string) :=
  match r with
  | Raise e => Raise e
  | Ok (Plain _) => Raise not_awaitable
  | Ok (Awaitable r') => r'
  end.

(** [await client.pull(target=..., outdir=...)]: the call is made, the
    tree is written and the pull enters the trace with its outcome; then
    what the call handed back is awaited. *)
Definition pull (target : string) (outdir : path) : M (list string) :=
  fun s =>
    let '(r, n) := oras_pull E target outdir s in
    (await_pulled r, emit (EvPull target outdir (pull_outcome r)) (set_fs n s)).

Definition fetch_oci (obj : loc) : M OCIArtifact.t :=
  u <- attr obj OCIRepository.url ;;
  v <- attr obj (version E) ;;
  oci_repo_path <- get_repo_path E u v ;;
  o <- attr obj (fun o => o) ;;
  log INFO "Fetching OCI repository %s" [AObj o] ;;
  target <- attr obj (versioned_url E) ;;
  res <- pull target oci_repo_path ;;
  log DEBUG "Downloaded resources: %s" [AStrs res] ;;
  log DEBUG "Checking for Helm charts with dependencies in %s"
      [APath oci_repo_path] ;;
  build_helm_dependencies E oci_repo_path ;;
  a_url <- attr obj OCIRepository.url ;;
  a_ref <- attr obj OCIRepository.ref ;;
  ret {| OCIArtifact.url := a_url;
         OCIArtifact.ref := a_ref;
         OCIArtifact.local_path := oci_repo_path |}.

End Oci.

(* ===================================================================== *)
(** ** Reading traces *)

(** The events a run has added to the trace. *)
Definition since (s s' : State) : list event :=
  skipn (List.length (trace s)) (trace s').

(** State [s'] is state [s] with the events [new] added and nothing else
    changed. *)
Definition extends (s s' : State) (new : list event) : Prop :=
  fs s' = fs s /\ heap s' = heap s /\ trace s' = trace s ++ new.

(** The commands invoked, in order. *)
Fixpoint runs (t : list event) : list Command :=
  match t with
  | [] => []
  | EvRun c _ :: r => c :: runs r
  | _ :: r => runs r
  end.

(** The pulls made, in order, as (target, outdir). *)
Fixpoint pulls (t : list event) : list (string * path) :=
  match t with
  | [] => []
  | EvPull target outdir _ :: r => (target, outdir) :: pulls r
  | _ :: r => pulls r
  end.

Definition path_eqb (p q : path) : bool :=
  if path_eq_dec p q then true else false.

(** The invocations of a trace whose working directory is [d]. *)
Definition runs_in (d : path) (t : list event) : list Command :=
  filter (fun c => path_eqb (cwd c) d) (runs t).

(* ===================================================================== *)
(** ** What a descriptor declares *)

Section Descriptors.
Context (E : Collaborators).

(** The parsed content of the regular, decodable file at [cf]. *)
Definition parsed (root : node) (cf : path) : option (result yaml) :=
  match lookup root cf with
  | Some (File (Text t)) => Some (yaml_safe_load E t)
  | _ => None
  end.

(** The descriptor is a mapping whose [dependencies] is a non-empty
    list. *)
Definition declares_dependencies (root : node) (cf : path) : bool :=
  match parsed root cf with
  | Some (Ok (YDict d)) =>
      match dict_lookup d "dependencies" with
      | Some (YList (_ :: _)) => true
      | _ => false
      end
  | _ => false
  end.

(** The descriptor is a mapping whose [dependencies] is absent, null
    or the empty list. *)
Definition no_dependencies (root : node) (cf : path) : bool :=
  match parsed root cf with
  | Some (Ok (YDict d)) =>
      match dict_lookup d "dependencies" with
      | None | Some YNone | Some (YList []) => true
      | _ => false
      end
  | _ => false
  end.

(** The [yaml.YAMLError] that [yaml.safe_load] raises on the file's
    content; [None] for every other outcome, an error of another class
    included. *)
Definition malformed (root : node) (cf : path) : option exn :=
  match parsed root cf with
  | Some (Raise e) => if is_YAMLError e then Some e else None
  | _ => None
  end.

(** The file parses, but not to a mapping. *)
Definition not_a_mapping (root : node) (cf : path) : bool :=
  match parsed root cf with
  | Some (Ok (YDict _)) => false
  | Some (Ok _) => true
  | _ => false
  end.

(** The descriptor for which [_build_chart_dependencies] reaches
    [command.run]: a mapping whose [dependencies] is true-valued and
    has a length. *)
Definition reaches_build (root : node) (cf : path) : bool :=
  match parsed root cf with
  | Some (Ok (YDict d)) =>
      let dependencies := dict_get d "dependencies" (YList []) in
      truthy dependencies &&
      match py_len dependencies with Some _ => true | None => false end
  | _ => false
  end.

(** Modelled from the spec: the cache "already has a usable path" for
    the object's key when the destination directory exists. *)
Definition cache_has_path (root : node) (o : OCIRepository.t) : bool :=
  match lookup root (repo_path E (OCIRepository.url o) (version E o)) with
  | Some (Dir _) => true
  | _ => false
  end.

End Descriptors.

(** The path names nothing, or a tree in which no entry is called
    [Chart.yaml]. *)
Definition nothing_to_search (root : node) (p : path) : bool :=
  match lookup root p with
  | None => true
  | Some n => negb (has_chart_yaml n)
  end.

(** Modelled from the spec: a declared version is pinned, not floating,
    when the ref names a content digest. *)
Definition pinned (o : OCIRepository.t) : bool :=
  match OCIRepository.ref o with
  | Some r =>
      match OCIRepository.digest r with Some _ => true | None => false end
  | None => false
  end.

(** An exception the second [except] clause handles: an [Exception] that
    is not a [yaml.YAMLError]. *)
Definition wrapped (e : exn) : bool :=
  is_Exception e && negb (is_YAMLError e).

(** The record the second [except] clause writes to the log for a failed
    invocation [c]. *)
Definition error_record (c : Command) (e : exn) : event :=
  EvLog ERROR "Failed to build dependencies for chart at %s: %s"
    [APath (cwd c); AExn e].

(** The message of the [HelmException] raised for [chart_dir]. *)
Definition failure_message (chart_dir : path) (e : exn) : string :=
  String.append "Failed to build dependencies for chart at "
    (String.append (str_path chart_dir) (String.append ": " (str_exn e))).

(* ===================================================================== *)
(** ** What a run has done when it stops *)

(** The invocation made for a descriptor. *)
Definition build_for (cf : path) : Command := dependency_build (parent cf).

(** What the loop has done when it stops: it worked through a prefix
    [done] of the list, invoking the build for the descriptors of that
    prefix that reach it, in order, and nothing else. *)
Definition loop_post (E : Collaborators) (l : list path) (s : State)
    (r : result unit) (s' : State) (new : list event) : Prop :=
  exists done rest,
    l = done ++ rest /\
    extends s s' new /\
    runs new = map build_for (filter (reaches_build E (fs s)) done) /\
    pulls new = [] /\
    (r = Ok tt -> rest = []) /\
    (forall c e, In (EvRun c (Raise e)) new -> wrapped e = true ->
       r = Raise (Exc HelmException (failure_message (cwd c) e) (Some e)) /\
       (exists pre, new = pre ++ [EvRun c (Raise e); error_record c e]) /\
       (exists before cf, done = before ++ [cf] /\ c = build_for cf)).

(** The loop as the claim words it: the descriptors of a list are
    processed one at a time, in the order of the list, each from the
    state the one before left behind.  A descriptor that ends normally is
    followed by the next one; the first one that raises ends the run
    with its error, in the state it left, and the descriptors after it
    are never reached.  [one_at_a_time E l s r s' done rest] relates the
    list [l] and the starting state [s] to the outcome [r], the final
    state [s'], the descriptors [done] that were processed and the
    descriptors [rest] that were not. *)
Inductive one_at_a_time (E : Collaborators)
  : list path -> State -> result unit -> State -> list path -> list path -> Prop :=
| all_done s :
    one_at_a_time E [] s (Ok tt) s [] []
| next_one cf l s s1 r s' done rest :
    _build_chart_dependencies E cf s = (Ok tt, s1) ->
    one_at_a_time E l s1 r s' done rest ->
    one_at_a_time E (cf :: l) s r s' (cf :: done) rest
| stop_at cf l s e s1 :
    _build_chart_dependencies E cf s = (Raise e, s1) ->
    one_at_a_time E (cf :: l) s (Raise e) s1 [cf] l.

(** The steps of [fetch_oci] once the cache has assigned the destination
    [dest]: the state in which the pull is made, and the state in which
    the dependency build starts. *)
Definition at_pull (o : OCIRepository.t) (n : node) (s : State) : State :=
  emit (EvLog INFO "Fetching OCI repository %s" [AObj o]) (set_fs n s).

Definition after_pull (dest : path) (target : string) (r : result (list string))
    (res : list string) (fetched : node) (s : State) : State :=
  emit (EvLog DEBUG "Checking for Helm charts with dependencies in %s" [APath dest])
    (emit (EvLog DEBUG "Downloaded resources: %s" [AStrs res])
       (emit (EvPull target dest r) (set_fs fetched s))).

(* ===================================================================== *)
(** ** A concrete world

    The chart repository of the test suite: an umbrella chart with one
    dependency beside a simple chart without any, plus descriptors that
    do not parse or are not mappings. *)

Module World.

Definition umbrella_text : string :=
  "name: umbrella-chart
dependencies:
  - name: nginx".

Definition simple_text : string := "name: simple-chart".

Definition invalid_text : string := "invalid: yaml: content: [".

Definition list_text : string := "- not a mapping".

Definition umbrella_data : yaml :=
  YDict [(YStr "name", YStr "umbrella-chart");
         (YStr "dependencies", YList [YDict [(YStr "name", YStr "nginx")]])].

Definition simple_data : yaml := YDict [(YStr "name", YStr "simple-chart")].

(** PyYAML on the four texts above. *)
Definition load (text : string) : result yaml :=
  if String.eqb text umbrella_text then Ok umbrella_data
  else if String.eqb text simple_text then Ok simple_data
  else if String.eqb text list_text then Ok (YList [YStr "not a mapping"])
  else Raise (Exc YAMLError "mapping values are not allowed here" None).

Definition chart (text : string) : node :=
  Dir [(CHART_YAML, File (Text text)); ("templates", Dir [("configmap.yaml", File (Text "kind: ConfigMap"))])].

Definition charts : node :=
  Dir [("umbrella", chart umbrella_text); ("simple", chart simple_text)].

(** [/repo/charts/{umbrella,simple}] *)
Definition repo : node := Dir [("repo", Dir [("charts", charts)])].

(** Two umbrella charts, so that a first failure leaves a second
    descriptor behind. *)
Definition repo2 : node :=
  Dir [("repo", Dir [("a", chart umbrella_text); ("b", chart umbrella_text)])].

(** An unparsable descriptor and a non-mapping descriptor before the
    umbrella chart. *)
Definition repo3 : node :=
  Dir [("repo", Dir [("bad", chart invalid_text);
                     ("seq", chart list_text);
                     ("umbrella", chart umbrella_text)])].

(** A stand-in for the stable hash: the key with its separators
    flattened. *)
Fixpoint flatten (s : string) : string :=
  match s with
  | EmptyString => EmptyString
  | String c r =>
      String (if (Ascii.eqb c "/" || Ascii.eqb c ":")%bool then "_"%char else c)
             (flatten r)
  end.

Definition key (url : string) (ver : option string) : string :=
  flatten (String.append url
             (match ver with Some v => String.append "@" v | None => "" end)).

Definition ver (o : OCIRepository.t) : option string :=
  match OCIRepository.ref o with
  | Some r =>
      match OCIRepository.digest r with
      | Some d => Some d
      | None => OCIRepository.tag r
      end
  | None => None
  end.

Definition ver_url (o : OCIRepository.t) : string :=
  match ver o with
  | Some v => String.append (OCIRepository.url o) (String.append "@" v)
  | None => OCIRepository.url o
  end.

Definition podinfo : OCIRepository.t :=
  {| OCIRepository.name := "podinfo";
     OCIRepository.namespace := "flux-system";
     OCIRepository.url := "oci://ghcr.io/stefanprodan/charts/podinfo";
     OCIRepository.ref :=
       Some {| OCIRepository.digest := Some "sha256:cafe";
               OCIRepository.tag := None |} |}.

Definition podinfo_path : path :=
  ["cache"; "oci___ghcr.io_stefanprodan_charts_podinfo@sha256_cafe"].

(** The cache directory once [podinfo] has been pulled. *)
Definition cached : node :=
  Dir [("cache", Dir [("oci___ghcr.io_stefanprodan_charts_podinfo@sha256_cafe",
                       charts)])].

(** Every tool succeeds; the client is an asynchronous one, whose pull
    is awaited and leaves the umbrella repository at the destination. *)
Definition tools : Collaborators :=
  {| yaml_safe_load := load;
     command_run := fun _ _ => Ok "";
     oras_pull := fun _ _ _ => (Ok (Awaitable (Ok ["Chart.yaml"])), cached);
     cache_dir := ["cache"];
     cache_key := key;
     version := ver;
     versioned_url := ver_url |}.

(** As [tools], but [helm dependency build] fails. *)
Definition failing_helm : Collaborators :=
  {| yaml_safe_load := load;
     command_run := fun _ _ =>
       Raise (Exc HelmException "Dependency build failed" None);
     oras_pull := fun _ _ _ => (Ok (Awaitable (Ok ["Chart.yaml"])), cached);
     cache_dir := ["cache"];
     cache_key := key;
     version := ver;
     versioned_url := ver_url |}.

Definition start (root : node) : State :=
  {| fs := root; heap := fun _ => podinfo; trace := [] |}.

End World.

(* ===================================================================== *)
(** ** Further descriptor shapes *)

(** The descriptor is a mapping whose [dependencies] is true-valued but
    has no length (a number, [true], a date): [len(dependencies)]
    raises. *)
Definition unsized_dependencies (E : Collaborators) (root : node) (cf : path)
  : bool :=
  match parsed E root cf with
  | Some (Ok (YDict d)) =>
      let dependencies := dict_get d "dependencies" (YList []) in
      truthy dependencies &&
      match py_len dependencies with Some _ => false | None => true end
  | _ => false
  end.

(** The descriptor is passed over with a log record: it fails to parse,
    or is not a mapping, or is a mapping whose [dependencies] is absent
    or false-valued ([null], [false], [0], an empty string, list or
    mapping). *)
Definition passed_over (E : Collaborators) (root : node) (cf : path) : bool :=
  match parsed E root cf with
  | Some (Raise e) => is_YAMLError e
  | Some (Ok (YDict d)) => negb (truthy (dict_get d "dependencies" (YList [])))
  | Some (Ok _) => true
  | None => false
  end.

(** The [TypeError] of [len] on a value without length. *)
Definition no_len : exn := Exc TypeError "object has no len()" None.

(** [q] is [p] or lies below it. *)
Definition below (p q : path) : Prop := exists rel, q = p ++ rel.

(** Descriptors and tools at the edges of the code's case analysis. *)
Module Edge.

(** PyYAML on three more texts. *)
Definition load (text : string) : result yaml :=
  if String.eqb text "dependencies: 3" then
    Ok (YDict [(YStr "dependencies", YInt 3)])
  else if String.eqb text "dependencies: nginx" then
    Ok (YDict [(YStr "dependencies", YStr "nginx")])
  else if String.eqb text "dependencies: 0" then
    Ok (YDict [(YStr "dependencies", YInt 0)])
  else World.load text.

(** A date that PyYAML resolves as a timestamp but that no calendar
    has: constructing it raises [ValueError], not a [yaml.YAMLError]. *)
Definition dated_text : string := "created: 2001-13-45".

Definition bad_date : exn := Exc ValueError "month must be in 1..12" None.

(** PyYAML on [dated_text] and on the texts above. *)
Definition load_dated (text : string) : result yaml :=
  if String.eqb text dated_text then Raise bad_date else load text.

(** A chart with the bad date, found before an umbrella chart. *)
Definition dated : node :=
  Dir [("repo", Dir [("dated", World.chart dated_text);
                     ("umbrella", World.chart World.umbrella_text)])].

(** [/repo/Chart.yaml] says [dependencies: 3]. *)
Definition numeric : node := Dir [("repo", World.chart "dependencies: 3")].

(** [/repo/Chart.yaml] says [dependencies: nginx]. *)
Definition stringly : node := Dir [("repo", World.chart "dependencies: nginx")].

(** [/repo/Chart.yaml] is a directory. *)
Definition dir_descriptor : node :=
  Dir [("repo", Dir [(CHART_YAML, Dir [])])].

(** Nothing but descriptors that are passed over. *)
Definition harmless : node :=
  Dir [("repo", Dir [("bad", World.chart World.invalid_text);
                     ("seq", World.chart World.list_text);
                     ("zero", World.chart "dependencies: 0");
                     ("simple", World.chart World.simple_text)])].

(** An OCI artifact that carries manifests and no chart. *)
Definition manifests : node :=
  Dir [("cache", Dir [("oci___ghcr.io_stefanprodan_charts_podinfo@sha256_cafe",
                       Dir [("deployment.yaml", File (Text "kind: Deployment"))])])].

Definition tools : Collaborators :=
  {| yaml_safe_load := load;
     command_run := fun _ _ => Ok "";
     oras_pull := fun _ _ _ =>
       (Ok (Awaitable (Ok ["deployment.yaml"])), manifests);
     cache_dir := ["cache"];
     cache_key := World.key;
     version := World.ver;
     versioned_url := World.ver_url |}.

(** As [tools], with PyYAML knowing the bad date. *)
Definition dated_tools : Collaborators :=
  {| yaml_safe_load := load_dated;
     command_run := fun _ _ => Ok "";
     oras_pull := fun _ _ _ =>
       (Ok (Awaitable (Ok ["deployment.yaml"])), manifests);
     cache_dir := ["cache"];
     cache_key := World.key;
     version := World.ver;
     versioned_url := World.ver_url |}.

(** The task is cancelled while [helm] runs. *)
Definition cancelled : Collaborators :=
  {| yaml_safe_load := load;
     command_run := fun _ _ => Raise (Exc CancelledError "" None);
     oras_pull := fun _ _ _ =>
       (Ok (Awaitable (Ok ["Chart.yaml"])), World.cached);
     cache_dir := ["cache"];
     cache_key := World.key;
     version := World.ver;
     versioned_url := World.ver_url |}.

(** The synchronous client: its pull does the work and returns the list
    of files, not an awaitable. *)
Definition sync_client : Collaborators :=
  {| yaml_safe_load := load;
     command_run := fun _ _ => Ok "";
     oras_pull := fun _ _ _ => (Ok (Plain ["Chart.yaml"]), World.cached);
     cache_dir := ["cache"];
     cache_key := World.key;
     version := World.ver;
     versioned_url := World.ver_url |}.

(** The registry refuses the pull. *)
Definition pull_fails : Collaborators :=
  {| yaml_safe_load := load;
     command_run := fun _ _ => Ok "";
     oras_pull := fun _ _ s =>
       (Raise (Exc ValueError "manifest unknown" None), fs s);
     cache_dir := ["cache"];
     cache_key := World.key;
     version := World.ver;
     versioned_url := World.ver_url |}.

End Edge.

(* ===================================================================== *)
(** ** Induction over trees *)

Section NodeInduction.
Variable P : node -> Prop.
Hypothesis P_file : forall d, P (File d).
Hypothesis P_dir : forall es, Forall (fun e => P (snd e)) es -> P (Dir es).

Fixpoint node_ind' (n : node) : P n :=
  match n with
  | File d => P_file d
  | Dir es =>
      P_dir es
        ((fix all (l : list (string * node)) : Forall (fun e => P (snd e)) l :=
            match l with
            | [] => Forall_nil _
            | e :: r => Forall_cons e (node_ind' (snd e)) (all r)
            end) es)
  end.
End NodeInduction.

(* ===================================================================== *)
(** ** Facts about the recursive search *)

Lemma find_entry_none name es :
  existsb (fun e => String.eqb (fst e) name) es = false ->
  find_entry name es = None.
Proof.
  induction es as [|[n c] r IH]; simpl; intros H; [reflexivity|].
  apply orb_false_iff in H as [Hn Hr].
  rewrite Hn. auto.
Qed.

(** Every selected path is the [Chart.yaml] entry of some directory. *)
Lemma select_from_shape n :
  forall p cf, In cf (select_from p n) -> exists d, cf = child d CHART_YAML.
Proof.
  induction n as [d|es IH] using node_ind'; intros p cf Hin; simpl in Hin.
  - contradiction.
  - apply in_app_or in Hin as [Hin|Hin].
    + destruct (find_entry CHART_YAML es); simpl in Hin; [|contradiction].
      destruct Hin as [<-|[]]. now exists p.
    + apply in_flat_map in Hin as [e [He Hcf]].
      rewrite Forall_forall in IH. eapply IH; eauto.
Qed.

Lemma parent_child d name : parent (child d name) = d.
Proof. unfold parent, child. apply removelast_last. Qed.

Lemma unique_from_In l :
  forall yielded x,
    In x (unique_from yielded l) -> In x l /\ ~ In x yielded.
Proof.
  induction l as [|p r IH]; intros yielded x; simpl; [contradiction|].
  destruct (in_dec path_eq_dec p yielded) as [Hp|Hp].
  - intros H. apply IH in H as [H1 H2]. auto.
  - intros [<-|H]; [auto|].
    apply IH in H as [H1 H2]. split; [auto|].
    intros Hx. apply H2. simpl. auto.
Qed.

Lemma unique_from_NoDup l : forall yielded, NoDup (unique_from yielded l).
Proof.
  induction l as [|p r IH]; intros yielded; simpl; [constructor|].
  destruct (in_dec path_eq_dec p yielded) as [Hp|Hp]; [apply IH|].
  constructor; [|apply IH].
  intros H. apply unique_from_In in H as [_ H]. apply H. simpl. auto.
Qed.

Lemma rglob_shape root p cf :
  In cf (rglob root p) -> cf = child (parent cf) CHART_YAML.
Proof.
  unfold rglob. destruct (lookup root p) as [n|]; [|contradiction].
  intros Hin. apply unique_from_In in Hin as [Hin _].
  apply select_from_shape in Hin as [d ->].
  now rewrite parent_child.
Qed.

Lemma rglob_NoDup root p : NoDup (rglob root p).
Proof.
  unfold rglob. destruct (lookup root p); [apply unique_from_NoDup | constructor].
Qed.

(** Two discovered descriptors in the same directory are the same. *)
Lemma rglob_parent_inj root p cf cf' :
  In cf (rglob root p) -> In cf' (rglob root p) ->
  parent cf = parent cf' -> cf = cf'.
Proof.
  intros H H' Heq.
  rewrite (rglob_shape _ _ _ H), (rglob_shape _ _ _ H'). now rewrite Heq.
Qed.

Lemma flat_map_nil {A B} (f : A -> list B) l :
  (forall x, In x l -> f x = []) -> flat_map f l = [].
Proof.
  induction l as [|a l IH]; simpl; intros H; [reflexivity|].
  rewrite (H a) by auto. simpl. auto.
Qed.

(** A tree without any [Chart.yaml] entry selects nothing. *)
Lemma select_from_empty n :
  forall p, has_chart_yaml n = false -> select_from p n = [].
Proof.
  induction n as [d|es IH] using node_ind'; intros p H; simpl in *;
    [reflexivity|].
  assert (Hall : forall e, In e es ->
            String.eqb (fst e) CHART_YAML = false /\
            has_chart_yaml (snd e) = false).
  { intros e He. apply orb_false_iff.
    destruct (String.eqb (fst e) CHART_YAML || has_chart_yaml (snd e)) eqn:Hb;
      [|reflexivity].
    rewrite <- H. symmetry. apply existsb_exists. eauto. }
  rewrite find_entry_none, flat_map_nil; [reflexivity| |].
  - intros e He. rewrite Forall_forall in IH.
    apply IH; [exact He | apply Hall, He].
  - destruct (existsb (fun e => String.eqb (fst e) CHART_YAML) es) eqn:Hb;
      [|reflexivity].
    apply existsb_exists in Hb as (e & He & Hb).
    rewrite (proj1 (Hall e He)) in Hb. discriminate.
Qed.

(* ===================================================================== *)
(** ** Facts about traces *)

Lemma extends_refl s : extends s s [].
Proof. unfold extends. now rewrite app_nil_r. Qed.

Lemma extends_emit s s' new ev :
  extends s s' new -> extends s (emit ev s') (new ++ [ev]).
Proof.
  intros (Hfs & Hheap & Htr). unfold extends, emit; simpl.
  now rewrite Htr, app_assoc.
Qed.

Lemma extends_trans s s1 s2 a b :
  extends s s1 a -> extends s1 s2 b -> extends s s2 (a ++ b).
Proof.
  intros (Hfs & Hheap & Htr) (Hfs' & Hheap' & Htr'). unfold extends.
  rewrite Hfs', Hheap', Htr', Htr, app_assoc. auto.
Qed.

Lemma extends_since s s' new : extends s s' new -> since s s' = new.
Proof.
  intros (_ & _ & Htr). unfold since. rewrite Htr.
  rewrite skipn_app, skipn_all, Nat.sub_diag. reflexivity.
Qed.

Lemma runs_app t u : runs (t ++ u) = runs t ++ runs u.
Proof.
  induction t as [|[| |] t IH]; simpl; rewrite ?IH; reflexivity.
Qed.

Lemma pulls_app t u : pulls (t ++ u) = pulls t ++ pulls u.
Proof.
  induction t as [|[| |] t IH]; simpl; rewrite ?IH; reflexivity.
Qed.

Lemma wrapped_inv e :
  wrapped e = true -> is_YAMLError e = false /\ is_Exception e = true.
Proof.
  unfold wrapped. intros H. apply andb_true_iff in H as [H1 H2].
  apply negb_true_iff in H2. auto.
Qed.

(* ===================================================================== *)
(** ** One descriptor *)

Ltac trace_done :=
  repeat (eapply extends_emit); apply extends_refl.

Ltac split_case :=
  match goal with
  | |- context [match ?x with _ => _ end] =>
      lazymatch x with
      | context [match _ with _ => _ end] => fail
      | negb ?y => destruct y eqn:?
      | andb ?y _ => destruct y eqn:?
      | _ => destruct x eqn:?
      end
  end.

(** Whatever the descriptor holds, [_build_chart_dependencies] only adds
    events; it invokes the build command once, in the chart directory,
    exactly when the descriptor reaches the build; and a failed
    invocation that the second [except] clause handles is the last thing
    it does before raising the wrapping [HelmException]. *)
Lemma build_one_spec E cf s :
  exists new,
    extends s (snd (_build_chart_dependencies E cf s)) new /\
    runs new =
      (if reaches_build E (fs s) cf then [dependency_build (parent cf)] else []) /\
    pulls new = [] /\
    (forall c e, In (EvRun c (Raise e)) new -> wrapped e = true ->
       fst (_build_chart_dependencies E cf s) =
         Raise (Exc HelmException (failure_message (cwd c) e) (Some e)) /\
       exists pre, new = pre ++ [EvRun c (Raise e); error_record c e]).
Proof.
  unfold _build_chart_dependencies, try_except, try_body, bind, read_text,
    safe_load, reaches_build, parsed, handler, len, run, log, raise, ret.
  repeat (split_case; simpl in *; try discriminate);
    repeat match goal with
           | H : (_, _) = (_, _) |- _ => inversion H; clear H; subst
           end;
    simpl in *;
    (eexists; split; [trace_done|]; simpl; split;
     [try reflexivity; try congruence|]; split; [reflexivity|]).
  all: intros c0 e0 Hin Hw; apply wrapped_inv in Hw as [Hy Hx]; simpl in Hin;
    repeat match goal with
           | H : _ \/ _ |- _ => destruct H
           | H : False |- _ => contradiction
           | H : EvLog _ _ _ = EvRun _ _ |- _ => discriminate H
           | H : EvRun _ _ = EvRun _ _ |- _ => inversion H; clear H; subst
           end; try congruence.
  all: simpl; split; [reflexivity|].
  all: eexists [_]; reflexivity.
Qed.

Lemma In_runs c r t : In (EvRun c r) t -> In c (runs t).
Proof.
  induction t as [|ev t IH]; simpl; [contradiction|].
  intros [->|H]; simpl; auto.
  destruct ev; simpl; auto.
Qed.

(* ===================================================================== *)
(** ** The loop over the descriptors *)

Lemma for_each_spec E l :
  forall s,
    exists new,
      loop_post E l s
        (fst (for_each (_build_chart_dependencies E) l s))
        (snd (for_each (_build_chart_dependencies E) l s)) new.
Proof.
  induction l as [|x l IH]; intros s.
  - exists []. exists [], []. simpl.
    split; [reflexivity|]. split; [apply extends_refl|].
    split; [reflexivity|]. split; [reflexivity|]. split; [reflexivity|].
    intros c e [].
  - simpl. unfold bind.
    destruct (build_one_spec E x s) as (new1 & Hext1 & Hruns1 & Hpull1 & Hfail1).
    destruct (_build_chart_dependencies E x s) as [[[]|ex] s1] eqn:Hx; simpl in *.
    + destruct (IH s1)
        as (new2 & done & rest & Hl & Hext2 & Hruns2 & Hpull2 & Hok & Hfail2).
      assert (Hfs : fs s1 = fs s) by apply Hext1.
      exists (new1 ++ new2), (x :: done), rest.
      split; [now rewrite Hl|].
      split; [apply (extends_trans _ _ _ _ _ Hext1 Hext2)|].
      split.
      { rewrite runs_app, Hruns1, Hruns2, Hfs. simpl.
        destruct (reaches_build E (fs s) x); reflexivity. }
      split; [now rewrite pulls_app, Hpull1, Hpull2|].
      split; [exact Hok|].
      intros c e Hin Hw. apply in_app_or in Hin as [Hin|Hin].
      * destruct (Hfail1 _ _ Hin Hw) as [Habs _]. discriminate.
      * destruct (Hfail2 _ _ Hin Hw) as (Hr & (pre & ->) & (before & cf & -> & ->)).
        split; [exact Hr|]. split.
        -- exists (new1 ++ pre). now rewrite app_assoc.
        -- now exists (x :: before), cf.
    + exists new1, [x], l.
      split; [reflexivity|]. split; [exact Hext1|].
      split.
      { simpl. rewrite Hruns1.
        destruct (reaches_build E (fs s) x); reflexivity. }
      split; [exact Hpull1|].
      split; [discriminate|].
      intros c e Hin Hw.
      destruct (Hfail1 _ _ Hin Hw) as (Hr & Hlast).
      split; [exact Hr|]. split; [exact Hlast|].
      exists [], x. split; [reflexivity|].
      apply In_runs in Hin. rewrite Hruns1 in Hin.
      destruct (reaches_build E (fs s) x); simpl in Hin; [|contradiction].
      destruct Hin as [<-|[]]. reflexivity.
Qed.

Lemma rglob_exists root p :
  rglob root p <> [] -> path_exists root p = true.
Proof.
  unfold rglob, path_exists. destruct (lookup root p); auto.
Qed.

(** [build_helm_dependencies] on a tree with descriptors is the loop. *)
Lemma build_unfold E p s :
  rglob (fs s) p <> [] ->
  build_helm_dependencies E p s =
    (log DEBUG "Found %d Chart.yaml files in %s"
         [AInt (Z.of_nat (List.length (rglob (fs s) p))); APath p] ;;
     for_each (_build_chart_dependencies E) (rglob (fs s) p)) s.
Proof.
  intros Hne. unfold build_helm_dependencies.
  rewrite (rglob_exists _ _ Hne). simpl.
  destruct (rglob (fs s) p); [contradiction|reflexivity].
Qed.

Lemma build_spec E p s :
  exists new,
    loop_post E (rglob (fs s) p) s
      (fst (build_helm_dependencies E p s))
      (snd (build_helm_dependencies E p s)) new.
Proof.
  destruct (rglob (fs s) p) as [|x l] eqn:Hl.
  - unfold build_helm_dependencies. rewrite Hl.
    destruct (negb (path_exists (fs s) p)); simpl;
      eexists; exists [], [];
      (split; [reflexivity|]); (split; [trace_done|]); simpl;
      (split; [reflexivity|]); (split; [reflexivity|]); (split; [reflexivity|]);
      intros c e [H|[]]; discriminate.
  - rewrite build_unfold by (rewrite Hl; discriminate).
    unfold bind, log. rewrite Hl.
    set (s0 := emit _ s).
    destruct (for_each_spec E (x :: l) s0)
      as (new & done & rest & Hlr & Hext & Hruns & Hpull & Hok & Hfail).
    assert (Hext0 : extends s s0 ([] ++ [EvLog DEBUG "Found %d Chart.yaml files in %s"
              [AInt (Z.of_nat (List.length (x :: l))); APath p]]))
      by (apply extends_emit, extends_refl).
    eexists; exists done, rest.
    split; [exact Hlr|].
    split; [exact (extends_trans _ _ _ _ _ Hext0 Hext)|].
    split; [simpl; exact Hruns|].
    split; [simpl; exact Hpull|].
    split; [exact Hok|].
    intros c e Hin Hw. simpl in Hin. destruct Hin as [Hin|Hin]; [discriminate|].
    destruct (Hfail _ _ Hin Hw) as (Hr & (pre & Hnew) & Hlast).
    split; [exact Hr|]. split; [|exact Hlast].
    eexists (_ :: pre). simpl. now rewrite Hnew.
Qed.

(* ===================================================================== *)
(** ** Descriptors that are skipped *)

Lemma skip_malformed E cf s e :
  malformed E (fs s) cf = Some e ->
  _build_chart_dependencies E cf s =
    log WARNING "Failed to parse Chart.yaml at %s: %s" [APath cf; AExn e] s.
Proof.
  unfold malformed, parsed, _build_chart_dependencies, try_except, try_body,
    bind, read_text, safe_load, handler.
  destruct (lookup (fs s) cf) as [[[t|]|es]|]; try discriminate.
  destruct (yaml_safe_load E t) as [v|e']; try discriminate.
  destruct (is_YAMLError e') eqn:Hy; try discriminate.
  intros [= ->]. reflexivity.
Qed.

Lemma skip_not_a_mapping E cf s :
  not_a_mapping E (fs s) cf = true ->
  _build_chart_dependencies E cf s =
    log WARNING "Invalid Chart.yaml format in %s" [APath cf] s.
Proof.
  unfold not_a_mapping, parsed, _build_chart_dependencies, try_except, try_body,
    bind, read_text, safe_load.
  destruct (lookup (fs s) cf) as [[[t|]|es]|]; try discriminate.
  destruct (yaml_safe_load E t) as [v|e']; try discriminate.
  destruct v; try discriminate; reflexivity.
Qed.

Lemma skip_no_dependencies E cf s :
  no_dependencies E (fs s) cf = true ->
  _build_chart_dependencies E cf s =
    log DEBUG "No dependencies found in %s" [APath cf] s.
Proof.
  unfold no_dependencies, parsed, _build_chart_dependencies, try_except, try_body,
    bind, read_text, safe_load, dict_get.
  destruct (lookup (fs s) cf) as [[[t|]|es]|]; try discriminate.
  destruct (yaml_safe_load E t) as [v|e']; try discriminate.
  destruct v; try discriminate.
  destruct (dict_lookup items "dependencies") as [[]|]; try discriminate;
    try reflexivity.
  destruct l; try discriminate. reflexivity.
Qed.

Lemma malformed_not_reached E root cf e :
  malformed E root cf = Some e -> reaches_build E root cf = false.
Proof.
  unfold malformed, reaches_build.
  destruct (parsed E root cf) as [[v|e']|]; try discriminate; reflexivity.
Qed.

Lemma not_a_mapping_not_reached E root cf :
  not_a_mapping E root cf = true -> reaches_build E root cf = false.
Proof.
  unfold not_a_mapping, reaches_build.
  destruct (parsed E root cf) as [[[]|e']|]; try discriminate; reflexivity.
Qed.

Lemma no_dependencies_not_reached E root cf :
  no_dependencies E root cf = true -> reaches_build E root cf = false.
Proof.
  unfold no_dependencies, reaches_build, dict_get.
  destruct (parsed E root cf) as [[[]|e']|]; try discriminate.
  destruct (dict_lookup items "dependencies") as [[]|]; try discriminate;
    try reflexivity.
  destruct l; try discriminate. reflexivity.
Qed.

Lemma declares_reaches E root cf :
  declares_dependencies E root cf = true -> reaches_build E root cf = true.
Proof.
  unfold declares_dependencies, reaches_build, dict_get.
  destruct (parsed E root cf) as [[[]|e']|]; try discriminate.
  destruct (dict_lookup items "dependencies") as [[]|]; try discriminate.
  destruct l; try discriminate. reflexivity.
Qed.

(* ===================================================================== *)
(** ** Counting invocations per chart directory *)

Lemma for_each_app {A} (body : A -> M unit) (l1 l2 : list A) s :
  for_each body (l1 ++ l2) s = (for_each body l1 ;; for_each body l2) s.
Proof.
  revert s. induction l1 as [|x l1 IH]; intros s; simpl.
  - reflexivity.
  - unfold bind in *. destruct (body x s) as [[[]|e] s1]; auto.
Qed.

Lemma path_eqb_eq p q : path_eqb p q = true <-> p = q.
Proof.
  unfold path_eqb. destruct (path_eq_dec p q); split; congruence.
Qed.

Lemma filter_none {A} (g : A -> bool) l :
  (forall y, In y l -> g y = false) -> filter g l = [].
Proof.
  induction l as [|a l IH]; simpl; intros H; [reflexivity|].
  rewrite (H a) by auto. auto.
Qed.

Lemma filter_single {A} (g : A -> bool) x l :
  NoDup l -> In x l -> g x = true ->
  (forall y, In y l -> g y = true -> y = x) ->
  filter g l = [x].
Proof.
  induction l as [|a l IH]; simpl; intros Hnd Hin Hx Huniq; [contradiction|].
  inversion Hnd as [|? ? Hna Hnd']; subst.
  destruct Hin as [->|Hin].
  - rewrite Hx. f_equal. apply filter_none. intros y Hy.
    destruct (g y) eqn:Hgy; [|reflexivity].
    rewrite (Huniq y (or_intror Hy) Hgy) in Hy. contradiction.
  - destruct (g a) eqn:Hga.
    + rewrite (Huniq a (or_introl eq_refl) Hga) in Hna. contradiction.
    + apply IH; auto.
Qed.

Lemma runs_in_map d l :
  filter (fun c => path_eqb (cwd c) d) (map build_for l) =
  map build_for (filter (fun cf => path_eqb (parent cf) d) l).
Proof.
  induction l as [|a l IH]; simpl; [reflexivity|].
  destruct (path_eqb (parent a) d); simpl; now rewrite IH.
Qed.

Lemma NoDup_prefix {A} (l1 l2 : list A) : NoDup (l1 ++ l2) -> NoDup l1.
Proof.
  induction l1 as [|a l1 IH]; simpl; intros H; [constructor|].
  inversion H; subst. constructor; auto.
  intros Hin. apply H2. apply in_or_app. auto.
Qed.

(** The invocations made in the directory of a discovered descriptor,
    given the prefix of descriptors that was processed. *)
Lemma runs_in_prefix E root p done rest cf :
  rglob root p = done ++ rest ->
  In cf (rglob root p) ->
  filter (fun c => path_eqb (cwd c) (parent cf))
         (map build_for (filter (reaches_build E root) done)) =
  if reaches_build E root cf && (if in_dec path_eq_dec cf done then true else false)
  then [build_for cf] else [].
Proof.
  intros Hl Hcf. rewrite runs_in_map.
  assert (Hnd : NoDup done).
  { apply NoDup_prefix with rest. rewrite <- Hl. apply rglob_NoDup. }
  assert (Hsub : forall y, In y done -> In y (rglob root p)).
  { intros y Hy. rewrite Hl. apply in_or_app. auto. }
  destruct (reaches_build E root cf) eqn:Hr; simpl.
  - destruct (in_dec path_eq_dec cf done) as [Hin|Hout].
    + rewrite (filter_single _ cf); [reflexivity| | | |].
      * apply NoDup_filter, Hnd.
      * apply filter_In. auto.
      * apply path_eqb_eq. reflexivity.
      * intros y Hy Hp. apply filter_In in Hy as [Hy _].
        apply path_eqb_eq in Hp.
        apply (rglob_parent_inj root p); auto.
    + rewrite filter_none; [reflexivity|].
      intros y Hy. apply filter_In in Hy as [Hy _].
      destruct (path_eqb (parent y) (parent cf)) eqn:Hp; [|reflexivity].
      apply path_eqb_eq in Hp.
      rewrite (rglob_parent_inj root p y cf) in Hy; auto. contradiction.
  - rewrite filter_none; [reflexivity|].
    intros y Hy. apply filter_In in Hy as [Hy Hry].
    destruct (path_eqb (parent y) (parent cf)) eqn:Hp; [|reflexivity].
    apply path_eqb_eq in Hp.
    rewrite (rglob_parent_inj root p y cf) in Hry; auto. congruence.
Qed.

(* ===================================================================== *)
(** ** Properties of [build_helm_dependencies] *)

Lemma for_each_all_skipped E l :
  forall s,
    (forall cf, In cf l -> no_dependencies E (fs s) cf = true) ->
    fst (for_each (_build_chart_dependencies E) l s) = Ok tt.
Proof.
  induction l as [|x l IH]; intros s Hall; simpl; [reflexivity|].
  unfold bind. rewrite skip_no_dependencies by (apply Hall; simpl; auto).
  unfold log. apply IH. intros cf Hcf. simpl. apply Hall. simpl; auto.
Qed.

(** A descriptor whose processing amounts to one log record contributes
    exactly that record to the run. *)
Lemma build_around_skipped E p s pre cf post lv fmt args :
  rglob (fs s) p = pre ++ cf :: post ->
  (forall s1, fs s1 = fs s ->
     _build_chart_dependencies E cf s1 = log lv fmt args s1) ->
  build_helm_dependencies E p s =
    (log DEBUG "Found %d Chart.yaml files in %s"
         [AInt (Z.of_nat (List.length (rglob (fs s) p))); APath p] ;;
     for_each (_build_chart_dependencies E) pre ;;
     log lv fmt args ;;
     for_each (_build_chart_dependencies E) post) s.
Proof.
  intros Hl Hskip.
  rewrite build_unfold by (rewrite Hl; destruct pre; discriminate).
  unfold bind. unfold log at 1 2. cbv iota beta.
  set (s0 := emit _ s).
  rewrite Hl, for_each_app. unfold bind.
  destruct (for_each_spec E pre s0) as (new & done & rest & _ & Hext & _).
  destruct (for_each (_build_chart_dependencies E) pre s0) as [[[]|ex] s1];
    [|reflexivity].
  simpl in Hext. simpl. unfold bind.
  rewrite Hskip; [reflexivity|].
  destruct Hext as (-> & _). reflexivity.
Qed.

(** C1 (as stated) fails on the code: of two descriptors that both
    declare a dependency, the second gets no dependency-build invocation
    when the build of the first one fails. *)
Lemma build_once_per_descriptor_counterexample :
  In ["repo"; "b"; "Chart.yaml"] (rglob World.repo2 ["repo"]) /\
  declares_dependencies World.failing_helm World.repo2
    ["repo"; "b"; "Chart.yaml"] = true /\
  runs_in ["repo"; "b"]
    (since (World.start World.repo2)
       (snd (build_helm_dependencies World.failing_helm ["repo"]
               (World.start World.repo2)))) = [].
Proof. vm_compute. auto. Qed.

(** C1 (amended): whenever [build_helm_dependencies] returns normally, the
    commands it has invoked are [helm dependency build], one per
    discovered descriptor that reaches the build, in discovery order;
    and for every discovered descriptor that declares a non-empty
    dependency list there is exactly one invocation whose working
    directory is that descriptor's containing directory. *)
Theorem build_once_per_descriptor E p s cf :
  fst (build_helm_dependencies E p s) = Ok tt ->
  In cf (rglob (fs s) p) ->
  declares_dependencies E (fs s) cf = true ->
  runs (since s (snd (build_helm_dependencies E p s))) =
    map (fun d => dependency_build (parent d))
        (filter (reaches_build E (fs s)) (rglob (fs s) p)) /\
  runs_in (parent cf) (since s (snd (build_helm_dependencies E p s))) =
    [dependency_build (parent cf)].
Proof.
  intros Hok Hin Hdecl.
  destruct (build_spec E p s)
    as (new & done & rest & Hl & Hext & Hruns & _ & Hrest & _).
  rewrite (extends_since _ _ _ Hext).
  specialize (Hrest Hok). subst rest. rewrite app_nil_r in Hl.
  split.
  - rewrite Hruns, Hl. reflexivity.
  - unfold runs_in. rewrite Hruns.
    rewrite (runs_in_prefix E (fs s) p done [] cf)
      by (rewrite ?app_nil_r; auto).
    rewrite (declares_reaches _ _ _ Hdecl).
    destruct (in_dec path_eq_dec cf done) as [_|Hout]; [reflexivity|].
    rewrite Hl in Hin. contradiction.
Qed.

Lemma build_once_per_descriptor_witness :
  fst (build_helm_dependencies World.tools ["repo"] (World.start World.repo))
    = Ok tt /\
  In ["repo"; "charts"; "umbrella"; "Chart.yaml"]
     (rglob (fs (World.start World.repo)) ["repo"]) /\
  declares_dependencies World.tools (fs (World.start World.repo))
     ["repo"; "charts"; "umbrella"; "Chart.yaml"] = true /\
  runs_in ["repo"; "charts"; "umbrella"]
    (since (World.start World.repo)
       (snd (build_helm_dependencies World.tools ["repo"]
               (World.start World.repo)))) =
    [dependency_build ["repo"; "charts"; "umbrella"]].
Proof.
  assert (H1 : fst (build_helm_dependencies World.tools ["repo"]
                      (World.start World.repo)) = Ok tt) by reflexivity.
  assert (H2 : In ["repo"; "charts"; "umbrella"; "Chart.yaml"]
                 (rglob (fs (World.start World.repo)) ["repo"]))
    by (vm_compute; auto).
  assert (H3 : declares_dependencies World.tools (fs (World.start World.repo))
                 ["repo"; "charts"; "umbrella"; "Chart.yaml"] = true)
    by reflexivity.
  split; [exact H1|]. split; [exact H2|]. split; [exact H3|].
  exact (proj2 (build_once_per_descriptor World.tools ["repo"]
                  (World.start World.repo)
                  ["repo"; "charts"; "umbrella"; "Chart.yaml"] H1 H2 H3)).
Defined.

(** C2: when every discovered descriptor has an absent, null or empty
    [dependencies] list, [build_helm_dependencies] returns normally and
    has invoked no command. *)
Theorem no_dependencies_no_build E p s :
  (forall cf, In cf (rglob (fs s) p) -> no_dependencies E (fs s) cf = true) ->
  fst (build_helm_dependencies E p s) = Ok tt /\
  runs (since s (snd (build_helm_dependencies E p s))) = [] /\
  fs (snd (build_helm_dependencies E p s)) = fs s.
Proof.
  intros Hall.
  destruct (build_spec E p s)
    as (new & done & rest & Hl & Hext & Hruns & _ & _ & _).
  rewrite (extends_since _ _ _ Hext).
  split; [|split].
  - destruct (rglob (fs s) p) as [|x l] eqn:Hrg.
    + unfold build_helm_dependencies. rewrite Hrg.
      destruct (negb (path_exists (fs s) p)); reflexivity.
    + rewrite build_unfold by (rewrite Hrg; discriminate).
      unfold bind, log. rewrite Hrg. apply for_each_all_skipped.
      simpl fs. intros cf Hcf. apply Hall. exact Hcf.
  - rewrite Hruns, filter_none; [reflexivity|].
    intros y Hy. apply no_dependencies_not_reached, Hall.
    rewrite Hl. apply in_or_app. auto.
  - apply Hext.
Qed.

Lemma no_dependencies_no_build_witness :
  (forall cf,
     In cf (rglob (fs (World.start World.repo)) ["repo"; "charts"; "simple"]) ->
     no_dependencies World.tools (fs (World.start World.repo)) cf = true) /\
  fst (build_helm_dependencies World.tools ["repo"; "charts"; "simple"]
         (World.start World.repo)) = Ok tt /\
  runs (since (World.start World.repo)
          (snd (build_helm_dependencies World.tools ["repo"; "charts"; "simple"]
                  (World.start World.repo)))) = [].
Proof.
  assert (H : forall cf,
     In cf (rglob (fs (World.start World.repo)) ["repo"; "charts"; "simple"]) ->
     no_dependencies World.tools (fs (World.start World.repo)) cf = true).
  { intros cf Hcf. vm_compute in Hcf. destruct Hcf as [<-|[]]. reflexivity. }
  split; [exact H|].
  destruct (no_dependencies_no_build World.tools ["repo"; "charts"; "simple"]
              (World.start World.repo) H) as (H1 & H2 & _).
  split; [exact H1 | exact H2].
Defined.

(** C3: whenever an invocation of the dependency build fails with an
    exception the handler wraps (the command's own [HelmException], or
    any other [Exception] that is not a YAML error),
    [build_helm_dependencies] raises a [HelmException] whose cause is
    that error, and the failed invocation is the last thing it did but
    for the error record in the log. *)
Theorem build_failure_is_fatal E p s c e :
  In (EvRun c (Raise e)) (since s (snd (build_helm_dependencies E p s))) ->
  wrapped e = true ->
  fst (build_helm_dependencies E p s) =
    Raise (Exc HelmException (failure_message (cwd c) e) (Some e)) /\
  exists pre,
    since s (snd (build_helm_dependencies E p s)) =
      pre ++ [EvRun c (Raise e); error_record c e].
Proof.
  destruct (build_spec E p s)
    as (new & done & rest & _ & Hext & _ & _ & _ & Hfail).
  rewrite (extends_since _ _ _ Hext). intros Hin Hw.
  destruct (Hfail _ _ Hin Hw) as (Hr & Hlast & _). auto.
Qed.

Lemma build_failure_is_fatal_witness :
  In (EvRun (dependency_build ["repo"; "a"])
        (Raise (Exc HelmException "Dependency build failed" None)))
     (since (World.start World.repo2)
        (snd (build_helm_dependencies World.failing_helm ["repo"]
                (World.start World.repo2)))) /\
  wrapped (Exc HelmException "Dependency build failed" None) = true /\
  fst (build_helm_dependencies World.failing_helm ["repo"]
         (World.start World.repo2)) =
    Raise (Exc HelmException
             (failure_message ["repo"; "a"]
                (Exc HelmException "Dependency build failed" None))
             (Some (Exc HelmException "Dependency build failed" None))).
Proof.
  assert (H1 : In (EvRun (dependency_build ["repo"; "a"])
        (Raise (Exc HelmException "Dependency build failed" None)))
     (since (World.start World.repo2)
        (snd (build_helm_dependencies World.failing_helm ["repo"]
                (World.start World.repo2)))))
    by (vm_compute; auto).
  assert (H2 : wrapped (Exc HelmException "Dependency build failed" None) = true)
    by reflexivity.
  split; [exact H1|]. split; [exact H2|].
  exact (proj1 (build_failure_is_fatal World.failing_helm ["repo"]
                  (World.start World.repo2) _ _ H1 H2)).
Defined.

Lemma no_invocation_for_unreached E p s cf :
  In cf (rglob (fs s) p) ->
  reaches_build E (fs s) cf = false ->
  runs_in (parent cf) (since s (snd (build_helm_dependencies E p s))) = [].
Proof.
  intros Hin Hr.
  destruct (build_spec E p s)
    as (new & done & rest & Hl & Hext & Hruns & _).
  rewrite (extends_since _ _ _ Hext). unfold runs_in. rewrite Hruns.
  rewrite (runs_in_prefix E (fs s) p done rest cf) by auto.
  now rewrite Hr.
Qed.

(** X17: a discovered descriptor on which PyYAML raises a
    [yaml.YAMLError] does not raise: processing it returns
    normally and adds one warning to the log; the run as a whole is the
    processing of the descriptors before it, that warning, and the
    processing of the descriptors after it; and no command is invoked in
    its directory. *)
Theorem malformed_descriptor_is_skipped E p s pre cf post e :
  rglob (fs s) p = pre ++ cf :: post ->
  malformed E (fs s) cf = Some e ->
  (forall s1, fs s1 = fs s ->
     _build_chart_dependencies E cf s1 =
       (Ok tt,
        emit (EvLog WARNING "Failed to parse Chart.yaml at %s: %s"
                [APath cf; AExn e]) s1)) /\
  build_helm_dependencies E p s =
    (log DEBUG "Found %d Chart.yaml files in %s"
         [AInt (Z.of_nat (List.length (rglob (fs s) p))); APath p] ;;
     for_each (_build_chart_dependencies E) pre ;;
     log WARNING "Failed to parse Chart.yaml at %s: %s" [APath cf; AExn e] ;;
     for_each (_build_chart_dependencies E) post) s /\
  runs_in (parent cf) (since s (snd (build_helm_dependencies E p s))) = [].
Proof.
  intros Hl Hm.
  assert (Hskip : forall s1, fs s1 = fs s ->
            _build_chart_dependencies E cf s1 =
              log WARNING "Failed to parse Chart.yaml at %s: %s"
                [APath cf; AExn e] s1).
  { intros s1 Hfs. apply skip_malformed. now rewrite Hfs. }
  split; [exact Hskip|]. split.
  - apply (build_around_skipped E p s pre cf post); assumption.
  - apply (no_invocation_for_unreached E p s cf).
    + rewrite Hl. apply in_or_app. simpl. auto.
    + apply (malformed_not_reached _ _ _ _ Hm).
Qed.

Lemma malformed_descriptor_is_skipped_witness :
  rglob (fs (World.start World.repo3)) ["repo"] =
    [] ++ ["repo"; "bad"; "Chart.yaml"]
       :: [["repo"; "seq"; "Chart.yaml"]; ["repo"; "umbrella"; "Chart.yaml"]] /\
  malformed World.tools (fs (World.start World.repo3))
    ["repo"; "bad"; "Chart.yaml"] =
    Some (Exc YAMLError "mapping values are not allowed here" None) /\
  runs_in ["repo"; "bad"]
    (since (World.start World.repo3)
       (snd (build_helm_dependencies World.tools ["repo"]
               (World.start World.repo3)))) = [].
Proof.
  assert (H1 : rglob (fs (World.start World.repo3)) ["repo"] =
    [] ++ ["repo"; "bad"; "Chart.yaml"]
       :: [["repo"; "seq"; "Chart.yaml"]; ["repo"; "umbrella"; "Chart.yaml"]])
    by reflexivity.
  assert (H2 : malformed World.tools (fs (World.start World.repo3))
    ["repo"; "bad"; "Chart.yaml"] =
    Some (Exc YAMLError "mapping values are not allowed here" None))
    by reflexivity.
  split; [exact H1|]. split; [exact H2|].
  exact (proj2 (proj2 (malformed_descriptor_is_skipped World.tools ["repo"]
                         (World.start World.repo3) _ _ _ _ H1 H2))).
Defined.

(** C9: a discovered descriptor that parses to something other than a
    mapping is skipped with the warning [Invalid Chart.yaml format]:
    processing it returns normally, the run as a whole is the
    processing of the descriptors before it, that warning, and the
    processing of those after it, and no command is invoked in its
    directory. *)
Theorem non_mapping_descriptor_is_skipped E p s pre cf post :
  rglob (fs s) p = pre ++ cf :: post ->
  not_a_mapping E (fs s) cf = true ->
  (forall s1, fs s1 = fs s ->
     _build_chart_dependencies E cf s1 =
       (Ok tt,
        emit (EvLog WARNING "Invalid Chart.yaml format in %s" [APath cf]) s1)) /\
  build_helm_dependencies E p s =
    (log DEBUG "Found %d Chart.yaml files in %s"
         [AInt (Z.of_nat (List.length (rglob (fs s) p))); APath p] ;;
     for_each (_build_chart_dependencies E) pre ;;
     log WARNING "Invalid Chart.yaml format in %s" [APath cf] ;;
     for_each (_build_chart_dependencies E) post) s /\
  runs_in (parent cf) (since s (snd (build_helm_dependencies E p s))) = [].
Proof.
  intros Hl Hm.
  assert (Hskip : forall s1, fs s1 = fs s ->
            _build_chart_dependencies E cf s1 =
              log WARNING "Invalid Chart.yaml format in %s" [APath cf] s1).
  { intros s1 Hfs. apply skip_not_a_mapping. now rewrite Hfs. }
  split; [exact Hskip|]. split.
  - apply (build_around_skipped E p s pre cf post); assumption.
  - apply (no_invocation_for_unreached E p s cf).
    + rewrite Hl. apply in_or_app. simpl. auto.
    + apply (not_a_mapping_not_reached _ _ _ Hm).
Qed.

Lemma non_mapping_descriptor_is_skipped_witness :
  rglob (fs (World.start World.repo3)) ["repo"] =
    [["repo"; "bad"; "Chart.yaml"]] ++ ["repo"; "seq"; "Chart.yaml"]
       :: [["repo"; "umbrella"; "Chart.yaml"]] /\
  not_a_mapping World.tools (fs (World.start World.repo3))
    ["repo"; "seq"; "Chart.yaml"] = true /\
  runs_in ["repo"; "seq"]
    (since (World.start World.repo3)
       (snd (build_helm_dependencies World.tools ["repo"]
               (World.start World.repo3)))) = [].
Proof.
  assert (H1 : rglob (fs (World.start World.repo3)) ["repo"] =
    [["repo"; "bad"; "Chart.yaml"]] ++ ["repo"; "seq"; "Chart.yaml"]
       :: [["repo"; "umbrella"; "Chart.yaml"]])
    by reflexivity.
  assert (H2 : not_a_mapping World.tools (fs (World.start World.repo3))
    ["repo"; "seq"; "Chart.yaml"] = true)
    by reflexivity.
  split; [exact H1|]. split; [exact H2|].
  exact (proj2 (proj2 (non_mapping_descriptor_is_skipped World.tools ["repo"]
                         (World.start World.repo3) _ _ _ H1 H2))).
Defined.



Lemma for_each_one_at_a_time E l :
  forall s,
    exists done rest,
      one_at_a_time E l s
        (fst (for_each (_build_chart_dependencies E) l s))
        (snd (for_each (_build_chart_dependencies E) l s)) done rest.
Proof.
  induction l as [|x l IH]; intros s; simpl.
  - exists [], []. constructor.
  - unfold bind.
    destruct (_build_chart_dependencies E x s) as [[[]|e] s1] eqn:Hx.
    + destruct (IH s1) as (done & rest & Hrel).
      exists (x :: done), rest. eapply next_one; eauto.
    + exists [x], l. simpl. now apply stop_at.
Qed.

(** What follows from processing a list one at a time: the processed
    descriptors are a prefix of the list, a normal end leaves none
    behind, an error comes from the last one processed, and the
    invocations are those of the processed descriptors, in order. *)
Lemma one_at_a_time_facts E l s r s' done rest :
  one_at_a_time E l s r s' done rest ->
  l = done ++ rest /\
  (r = Ok tt -> rest = []) /\
  (forall e, r = Raise e ->
     exists before cf s1,
       done = before ++ [cf] /\
       fst (_build_chart_dependencies E cf s1) = Raise e /\
       snd (_build_chart_dependencies E cf s1) = s' /\
       fs s1 = fs s) /\
  exists new,
    extends s s' new /\
    runs new = map build_for (filter (reaches_build E (fs s)) done) /\
    (forall c e, In (EvRun c (Raise e)) new -> wrapped e = true ->
       (exists before cf, done = before ++ [cf] /\ c = build_for cf) /\
       (exists pre, new = pre ++ [EvRun c (Raise e); error_record c e])).
Proof.
  induction 1 as [s | cf l s s1 r s' done rest Hcf Hrel IH | cf l s e s1 Hcf].
  - split; [reflexivity|]. split; [reflexivity|]. split; [discriminate|].
    exists []. split; [apply extends_refl|]. split; [reflexivity|].
    intros c e [].
  - destruct IH as (Hl & Hok & Hraise & new2 & Hext2 & Hruns2 & Hfail2).
    destruct (build_one_spec E cf s) as (new1 & Hext1 & Hruns1 & _ & Hfail1).
    rewrite Hcf in Hext1, Hfail1. simpl in Hext1, Hfail1.
    assert (Hfs : fs s1 = fs s) by apply Hext1.
    split; [now rewrite Hl|]. split; [exact Hok|]. split.
    { intros e He. destruct (Hraise e He) as (before & cf' & s2 & -> & H1 & H2 & H3).
      exists (cf :: before), cf', s2. repeat split; auto. congruence. }
    exists (new1 ++ new2).
    split; [apply (extends_trans _ _ _ _ _ Hext1 Hext2)|]. split.
    { rewrite runs_app, Hruns1, Hruns2, Hfs. simpl.
      destruct (reaches_build E (fs s) cf); reflexivity. }
    intros c e Hin Hw. apply in_app_or in Hin as [Hin|Hin].
    + destruct (Hfail1 _ _ Hin Hw) as [Habs _]. discriminate.
    + destruct (Hfail2 _ _ Hin Hw) as ((before & cf' & -> & ->) & (pre & ->)).
      split; [now exists (cf :: before), cf'|].
      exists (new1 ++ pre). now rewrite app_assoc.
  - destruct (build_one_spec E cf s) as (new1 & Hext1 & Hruns1 & _ & Hfail1).
    rewrite Hcf in Hext1, Hfail1. simpl in Hext1, Hfail1.
    split; [reflexivity|]. split; [discriminate|]. split.
    { intros e' [= <-]. exists [], cf, s. rewrite Hcf. auto. }
    exists new1. split; [exact Hext1|]. split.
    { simpl. rewrite Hruns1.
      destruct (reaches_build E (fs s) cf); reflexivity. }
    intros c e' Hin Hw. destruct (Hfail1 _ _ Hin Hw) as (_ & Hlast).
    split; [|exact Hlast].
    exists [], cf. split; [reflexivity|].
    apply In_runs in Hin. rewrite Hruns1 in Hin.
    destruct (reaches_build E (fs s) cf); simpl in Hin; [|contradiction].
    destruct Hin as [<-|[]]. reflexivity.
Qed.

(** C10: [build_helm_dependencies] writes one debug record and then
    processes the discovered descriptors one at a time, in the order of
    the recursive search, each from the state the one before left
    behind: a descriptor that ends normally is followed by the next
    one, and the run stops only at the end of the list or at the first
    descriptor whose processing raises, with that error, the later
    descriptors never reached.  The descriptors processed are a prefix
    of the list; the invocations of the run are those of that prefix,
    in that order, and they stay in the trace, after everything that
    was there before: nothing is undone.  If an invocation fails with
    an error the handler wraps, its descriptor is the last one
    processed and nothing follows the failed invocation but the error
    record in the log. *)
Theorem build_is_sequential E p s :
  exists fmt args done rest,
    one_at_a_time E (rglob (fs s) p) (emit (EvLog DEBUG fmt args) s)
      (fst (build_helm_dependencies E p s))
      (snd (build_helm_dependencies E p s)) done rest /\
    rglob (fs s) p = done ++ rest /\
    trace (snd (build_helm_dependencies E p s)) =
      trace s ++ since s (snd (build_helm_dependencies E p s)) /\
    runs (since s (snd (build_helm_dependencies E p s))) =
      map (fun cf => dependency_build (parent cf))
          (filter (reaches_build E (fs s)) done) /\
    (fst (build_helm_dependencies E p s) = Ok tt -> rest = []) /\
    (forall e,
       fst (build_helm_dependencies E p s) = Raise e ->
       exists before cf s1,
         done = before ++ [cf] /\
         fst (_build_chart_dependencies E cf s1) = Raise e /\
         snd (_build_chart_dependencies E cf s1) =
           snd (build_helm_dependencies E p s) /\
         fs s1 = fs s) /\
    (forall c e,
       In (EvRun c (Raise e)) (since s (snd (build_helm_dependencies E p s))) ->
       wrapped e = true ->
       (exists before cf, done = before ++ [cf] /\
                          c = dependency_build (parent cf)) /\
       (exists pre,
          since s (snd (build_helm_dependencies E p s)) =
            pre ++ [EvRun c (Raise e); error_record c e])).
Proof.
  assert (Hstart : exists fmt args,
            build_helm_dependencies E p s =
              for_each (_build_chart_dependencies E) (rglob (fs s) p)
                (emit (EvLog DEBUG fmt args) s)).
  { destruct (rglob (fs s) p) as [|x l] eqn:Hrg.
    - unfold build_helm_dependencies. rewrite Hrg.
      destruct (negb (path_exists (fs s) p)); do 2 eexists; reflexivity.
    - rewrite build_unfold by (rewrite Hrg; discriminate).
      rewrite Hrg. do 2 eexists. reflexivity. }
  destruct Hstart as (fmt & args & Hstart).
  set (s0 := emit (EvLog DEBUG fmt args) s) in *.
  destruct (for_each_one_at_a_time E (rglob (fs s) p) s0)
    as (done & rest & Hrel).
  rewrite <- Hstart in Hrel.
  destruct (one_at_a_time_facts _ _ _ _ _ _ _ Hrel)
    as (Hl & Hok & Hraise & new & Hext & Hruns & Hfail).
  assert (Hext0 : extends s s0 ([] ++ [EvLog DEBUG fmt args]))
    by (apply extends_emit, extends_refl).
  pose proof (extends_trans _ _ _ _ _ Hext0 Hext) as Hall.
  rewrite (extends_since _ _ _ Hall).
  exists fmt, args, done, rest.
  split; [exact Hrel|]. split; [exact Hl|]. split; [apply Hall|].
  split; [simpl; exact Hruns|]. split; [exact Hok|]. split; [exact Hraise|].
  intros c e Hin Hw. simpl in Hin. destruct Hin as [Hin|Hin]; [discriminate|].
  destruct (Hfail _ _ Hin Hw) as (Hcf & pre & ->).
  split; [exact Hcf|]. now exists (EvLog DEBUG fmt args :: pre).
Qed.

Lemma build_is_sequential_witness :
  exists done rest,
    done = [["repo"; "a"; "Chart.yaml"]] /\
    rest = [["repo"; "b"; "Chart.yaml"]] /\
    exists fmt args,
      one_at_a_time World.failing_helm (rglob World.repo2 ["repo"])
        (emit (EvLog DEBUG fmt args) (World.start World.repo2))
        (fst (build_helm_dependencies World.failing_helm ["repo"]
                (World.start World.repo2)))
        (snd (build_helm_dependencies World.failing_helm ["repo"]
                (World.start World.repo2))) done rest.
Proof.
  destruct (build_is_sequential World.failing_helm ["repo"]
              (World.start World.repo2))
    as (fmt & args & done & rest & Hrel & Hl & _).
  exists done, rest.
  assert (Hshape : done = [["repo"; "a"; "Chart.yaml"]] /\
                   rest = [["repo"; "b"; "Chart.yaml"]]).
  { simpl fs in Hrel.
    remember (rglob World.repo2 ["repo"]) as l eqn:Heql.
    vm_compute in Heql. subst l.
    inversion Hrel as [ | cf l s0 s1 r s' d rs Hcf Hrest
                        | cf l s0 e s1 Hcf ]; subst.
    - cbv in Hcf. discriminate.
    - split; reflexivity. }
  destruct Hshape as [Hd Hr].
  split; [exact Hd|]. split; [exact Hr|].
  exists fmt, args. exact Hrel.
Defined.

(** The example of the specification: an umbrella chart with one
    dependency beside a simple chart yields exactly one invocation, in
    [charts/umbrella]. *)
Example umbrella_and_simple :
  fst (build_helm_dependencies World.tools ["repo"] (World.start World.repo))
    = Ok tt /\
  runs (trace (snd (build_helm_dependencies World.tools ["repo"]
                      (World.start World.repo)))) =
    [{| cmd := ["helm"; "dependency"; "build"];
        cwd := ["repo"; "charts"; "umbrella"];
        exc := HelmException |}].
Proof. split; reflexivity. Qed.

(** The loop on two umbrella charts when [helm] fails: one invocation,
    for the first chart, and the [HelmException] that wraps its error. *)
Example build_stops_at_first_failure :
  build_helm_dependencies World.failing_helm ["repo"] (World.start World.repo2) =
    (Raise (Exc HelmException
              "Failed to build dependencies for chart at /repo/a: Dependency build failed"
              (Some (Exc HelmException "Dependency build failed" None))),
     {| fs := World.repo2;
        heap := fun _ => World.podinfo;
        trace :=
          [EvLog DEBUG "Found %d Chart.yaml files in %s" [AInt 2; APath ["repo"]];
           EvLog INFO "Found %d dependencies in chart %s, building dependencies"
             [AInt 1; AYaml (YStr "umbrella-chart")];
           EvRun (dependency_build ["repo"; "a"])
             (Raise (Exc HelmException "Dependency build failed" None));
           EvLog ERROR "Failed to build dependencies for chart at %s: %s"
             [APath ["repo"; "a"];
              AExn (Exc HelmException "Dependency build failed" None)]] |}).
Proof. reflexivity. Qed.

(* ===================================================================== *)
(** ** Properties of [fetch_oci] *)

Lemma since_app s s' new : trace s' = trace s ++ new -> since s s' = new.
Proof.
  intros Htr. unfold since. rewrite Htr.
  rewrite skipn_app, skipn_all, Nat.sub_diag. reflexivity.
Qed.

Lemma mkdir_p_existing p :
  forall n es, lookup n p = Some (Dir es) -> mkdir_p n p <> None.
Proof.
  induction p as [|c q IH]; intros n es; simpl.
  - intros [= ->]. discriminate.
  - destruct n as [d|es']; [discriminate|].
    destruct (find_entry c es') as [m|]; [|discriminate].
    intros Hm. specialize (IH m es Hm).
    destruct (mkdir_p m q); [discriminate|contradiction].
Qed.

Lemma fetch_oci_unfold E obj s :
  let o := heap s obj in
  let dest := repo_path E (OCIRepository.url o) (version E o) in
  let target := versioned_url E o in
  fetch_oci E obj s =
    match mkdir_p (fs s) dest with
    | None => (Raise (Exc OSError "[Errno 17] File exists" None), s)
    | Some n =>
        let called := oras_pull E target dest (at_pull o n s) in
        match await_pulled (fst called) with
        | Raise e =>
            (Raise e, emit (EvPull target dest (pull_outcome (fst called)))
                        (set_fs (snd called) (at_pull o n s)))
        | Ok res =>
            match build_helm_dependencies E dest
                    (after_pull dest target (pull_outcome (fst called)) res
                       (snd called) (at_pull o n s))
            with
            | (Ok _, s') =>
                (Ok {| OCIArtifact.url := OCIRepository.url (heap s' obj);
                       OCIArtifact.ref := OCIRepository.ref (heap s' obj);
                       OCIArtifact.local_path := dest |}, s')
            | (Raise e, s') => (Raise e, s')
            end
        end
    end.
Proof.
  intros o dest target.
  unfold fetch_oci, bind, attr, get_repo_path, pull, log, ret.
  fold o. fold dest.
  destruct (mkdir_p (fs s) dest) as [n|]; [|reflexivity].
  simpl heap. fold o. fold target. fold (at_pull o n s).
  destruct (oras_pull E target dest (at_pull o n s)) as [r fetched].
  cbv zeta. simpl fst. simpl snd.
  destruct (await_pulled r) as [res|e]; [|reflexivity].
  fold (after_pull dest target (pull_outcome r) res fetched (at_pull o n s)).
  destruct (build_helm_dependencies E dest _) as [[[]|e] s']; reflexivity.
Qed.

Lemma fetch_oci_heap E obj s : heap (snd (fetch_oci E obj s)) = heap s.
Proof.
  rewrite fetch_oci_unfold.
  destruct (mkdir_p (fs s) _) as [n|]; [|reflexivity].
  cbv zeta. destruct (await_pulled _) as [res|e]; [|reflexivity].
  match goal with
  | |- context [build_helm_dependencies E ?d ?s0] =>
      destruct (build_spec E d s0) as (new & done & rest & _ & Hext & _);
      destruct (build_helm_dependencies E d s0) as [[[]|e] s']
  end; simpl in *; destruct Hext as (_ & -> & _); reflexivity.
Qed.

(** C8: [fetch_oci] leaves the object heap as it found it, whether it
    returns or raises; in particular the object it was given has all its
    fields unchanged. *)
Theorem fetch_oci_does_not_mutate E obj s :
  heap (snd (fetch_oci E obj s)) = heap s /\
  heap (snd (fetch_oci E obj s)) obj = heap s obj.
Proof.
  split; [apply fetch_oci_heap | now rewrite fetch_oci_heap].
Qed.

(** An awaited pull that yields the list [res] came from an awaitable
    that yields it. *)
Lemma await_pulled_ok r res :
  await_pulled r = Ok res -> r = Ok (Awaitable (Ok res)).
Proof.
  destruct r as [[res'|[res'|e]]|e]; simpl; intros H;
    try discriminate; congruence.
Qed.




Lemma fetch_oci_trace E obj s n :
  let o := heap s obj in
  let dest := repo_path E (OCIRepository.url o) (version E o) in
  mkdir_p (fs s) dest = Some n ->
  exists r rest,
    trace (snd (fetch_oci E obj s)) =
      trace s ++
      EvLog INFO "Fetching OCI repository %s" [AObj o]
        :: EvPull (versioned_url E o) dest r :: rest /\
    pulls rest = [].
Proof.
  intros o dest Hn. rewrite fetch_oci_unfold. fold o dest. rewrite Hn.
  cbv zeta.
  destruct (await_pulled _) as [res|e].
  - match goal with
    | |- context [build_helm_dependencies E ?d ?s0] =>
        destruct (build_spec E d s0)
          as (new & done & rest & _ & Hext & _ & Hpulls & _);
        destruct (build_helm_dependencies E d s0) as [[[]|e] s']
    end; simpl in *; destruct Hext as (_ & _ & ->);
      unfold after_pull, at_pull; simpl;
      eexists; eexists (_ :: _ :: new);
      (split; [rewrite <- !app_assoc; reflexivity | exact Hpulls]).
  - eexists; exists []. unfold at_pull; simpl.
    split; [rewrite <- !app_assoc; reflexivity | reflexivity].
Qed.

(** C5 (as stated) fails on the code: with the destination directory
    already in the cache and the ref pinned to a digest, [fetch_oci]
    pulls all the same. *)
Lemma fetch_oci_skips_cached_counterexample :
  cache_has_path World.tools (fs (World.start World.cached))
    (heap (World.start World.cached) 0) = true /\
  pinned (heap (World.start World.cached) 0) = true /\
  pulls (since (World.start World.cached)
           (snd (fetch_oci World.tools 0 (World.start World.cached)))) =
    [("oci://ghcr.io/stefanprodan/charts/podinfo@sha256:cafe",
      World.podinfo_path)].
Proof. vm_compute. auto. Qed.

(** C5 (amended): [fetch_oci] has no cache short cut.  When the cache
    already has the destination directory for the object's (url,
    version) key, whatever the ref, it makes exactly one pull, of the
    versioned URL into that directory. *)
Theorem fetch_oci_always_pulls E obj s :
  cache_has_path E (fs s) (heap s obj) = true ->
  pulls (since s (snd (fetch_oci E obj s))) =
    [(versioned_url E (heap s obj),
      repo_path E (OCIRepository.url (heap s obj)) (version E (heap s obj)))].
Proof.
  unfold cache_has_path. intros Hhit.
  destruct (lookup (fs s) _) as [[d|es]|] eqn:Hl; try discriminate.
  pose proof (mkdir_p_existing _ _ _ Hl) as Hmk.
  destruct (mkdir_p (fs s) _) as [n|] eqn:Hn; [|contradiction].
  destruct (fetch_oci_trace E obj s n Hn) as (r & rest & Htr & Hp).
  unfold since. rewrite Htr, skipn_app, skipn_all, Nat.sub_diag. simpl.
  now rewrite Hp.
Qed.

Lemma fetch_oci_always_pulls_witness :
  cache_has_path World.tools (fs (World.start World.cached))
    (heap (World.start World.cached) 0) = true /\
  pulls (since (World.start World.cached)
           (snd (fetch_oci World.tools 0 (World.start World.cached)))) =
    [(versioned_url World.tools World.podinfo,
      repo_path World.tools (OCIRepository.url World.podinfo)
        (version World.tools World.podinfo))].
Proof.
  assert (H : cache_has_path World.tools (fs (World.start World.cached))
                (heap (World.start World.cached) 0) = true) by reflexivity.
  split; [exact H|].
  exact (fetch_oci_always_pulls World.tools 0 (World.start World.cached) H).
Defined.

(* ===================================================================== *)
(** ** What can come out of a run *)

Lemma not_Exception_not_YAML e :
  is_Exception e = false -> is_YAMLError e = false.
Proof. destruct e as [[] m c]; cbv; congruence. Qed.

(** One descriptor ends in one of three ways: normally, with the
    wrapping [HelmException], or with an error that is not an
    [Exception] and passes through. *)
Lemma build_one_result E cf s :
  fst (_build_chart_dependencies E cf s) = Ok tt \/
  (exists msg e,
     fst (_build_chart_dependencies E cf s) =
       Raise (Exc HelmException msg (Some e))) \/
  (exists e,
     fst (_build_chart_dependencies E cf s) = Raise e /\
     is_Exception e = false).
Proof.
  unfold _build_chart_dependencies, try_except, try_body, bind, read_text,
    safe_load, handler, len, run, log, raise, ret.
  repeat (split_case; simpl in *; try discriminate);
    repeat match goal with
           | H : (_, _) = (_, _) |- _ => inversion H; clear H; subst
           end;
    simpl in *;
    first [ left; reflexivity
          | right; left; do 2 eexists; reflexivity
          | right; right; eexists; split; [reflexivity | assumption] ].
Qed.

Lemma for_each_result E l :
  forall s,
    fst (for_each (_build_chart_dependencies E) l s) = Ok tt \/
    (exists msg e,
       fst (for_each (_build_chart_dependencies E) l s) =
         Raise (Exc HelmException msg (Some e))) \/
    (exists e,
       fst (for_each (_build_chart_dependencies E) l s) = Raise e /\
       is_Exception e = false).
Proof.
  induction l as [|x l IH]; intros s; simpl; [left; reflexivity|].
  unfold bind. pose proof (build_one_result E x s) as Hx.
  destruct (_build_chart_dependencies E x s) as [[[]|ex] s1]; simpl in *.
  - apply IH.
  - destruct Hx as [Hx|Hx]; [discriminate | right; exact Hx].
Qed.

(** An invocation that fails with an error that is not an [Exception]
    ends the processing of its descriptor there and then, with that very
    error. *)
Lemma build_one_unhandled E cf s :
  exists new,
    extends s (snd (_build_chart_dependencies E cf s)) new /\
    (forall c e, In (EvRun c (Raise e)) new -> is_Exception e = false ->
       fst (_build_chart_dependencies E cf s) = Raise e /\
       exists pre, new = pre ++ [EvRun c (Raise e)]).
Proof.
  unfold _build_chart_dependencies, try_except, try_body, bind, read_text,
    safe_load, handler, len, run, log, raise, ret.
  repeat (split_case; simpl in *; try discriminate);
    repeat match goal with
           | H : (_, _) = (_, _) |- _ => inversion H; clear H; subst
           end;
    simpl in *;
    (eexists; split; [trace_done|]; simpl).
  all: intros c0 e0 Hin Hx; pose proof (not_Exception_not_YAML _ Hx) as Hy;
    simpl in Hin;
    repeat match goal with
           | H : _ \/ _ |- _ => destruct H
           | H : False |- _ => contradiction
           | H : EvLog _ _ _ = EvRun _ _ |- _ => discriminate H
           | H : EvRun _ _ = EvRun _ _ |- _ => inversion H; clear H; subst
           end; try congruence.
  all: simpl; split; [reflexivity|].
  all: eexists [_]; reflexivity.
Qed.

Lemma for_each_unhandled E l :
  forall s,
    exists new,
      extends s (snd (for_each (_build_chart_dependencies E) l s)) new /\
      (forall c e, In (EvRun c (Raise e)) new -> is_Exception e = false ->
         fst (for_each (_build_chart_dependencies E) l s) = Raise e /\
         exists pre, new = pre ++ [EvRun c (Raise e)]).
Proof.
  induction l as [|x l IH]; intros s; simpl.
  - exists []. split; [apply extends_refl|]. intros c e [].
  - unfold bind.
    destruct (build_one_unhandled E x s) as (new1 & Hext1 & Hun1).
    destruct (_build_chart_dependencies E x s) as [[[]|ex] s1]; simpl in *.
    + destruct (IH s1) as (new2 & Hext2 & Hun2).
      exists (new1 ++ new2).
      split; [apply (extends_trans _ _ _ _ _ Hext1 Hext2)|].
      intros c e Hin Hx. apply in_app_or in Hin as [Hin|Hin].
      * destruct (Hun1 _ _ Hin Hx) as [Habs _]. discriminate.
      * destruct (Hun2 _ _ Hin Hx) as (Hr & pre & ->).
        split; [exact Hr|]. exists (new1 ++ pre). now rewrite app_assoc.
    + exists new1. split; [exact Hext1 | exact Hun1].
Qed.

(** A descriptor whose processing raises whatever the trace, in a list
    that is worked through, makes the loop raise. *)
Lemma for_each_fatal E root cf l :
  (forall s1, fs s1 = root ->
     exists e, fst (_build_chart_dependencies E cf s1) = Raise e) ->
  In cf l ->
  forall s, fs s = root ->
    exists e, fst (for_each (_build_chart_dependencies E) l s) = Raise e.
Proof.
  intros Hfatal. induction l as [|x l IH]; intros Hin s Hfs; [contradiction|].
  simpl. unfold bind.
  destruct (build_one_spec E x s) as (new & Hext & _).
  destruct (_build_chart_dependencies E x s) as [[[]|ex] s1] eqn:Hx;
    simpl in *; [|eauto].
  destruct Hin as [->|Hin].
  - destruct (Hfatal s Hfs) as [e He]. rewrite Hx in He. discriminate.
  - apply IH; [exact Hin|]. destruct Hext as (-> & _). exact Hfs.
Qed.

Lemma build_fatal E p s cf :
  (forall s1, fs s1 = fs s ->
     exists e, fst (_build_chart_dependencies E cf s1) = Raise e) ->
  In cf (rglob (fs s) p) ->
  exists e, fst (build_helm_dependencies E p s) = Raise e.
Proof.
  intros Hfatal Hin.
  rewrite build_unfold by (intros Hnil; rewrite Hnil in Hin; contradiction).
  unfold bind, log.
  apply (for_each_fatal E (fs s) cf); auto.
Qed.

(** Every selected path lies below the starting path. *)
Lemma select_from_below n :
  forall p cf, In cf (select_from p n) ->
    exists rel, cf = p ++ rel ++ [CHART_YAML].
Proof.
  induction n as [d|es IH] using node_ind'; intros p cf Hin; simpl in Hin.
  - contradiction.
  - apply in_app_or in Hin as [Hin|Hin].
    + destruct (find_entry CHART_YAML es); simpl in Hin; [|contradiction].
      destruct Hin as [<-|[]]. now exists [].
    + apply in_flat_map in Hin as [e [He Hcf]].
      rewrite Forall_forall in IH.
      destruct (IH e He _ _ Hcf) as [rel ->].
      exists (fst e :: rel). unfold child. now rewrite <- app_assoc.
Qed.

Lemma rglob_below root p cf :
  In cf (rglob root p) -> below p (parent cf).
Proof.
  unfold rglob. destruct (lookup root p) as [n|]; [|contradiction].
  intros Hin. apply unique_from_In in Hin as [Hin _].
  apply select_from_below in Hin as [rel ->].
  exists rel. unfold parent. now rewrite app_assoc, removelast_last.
Qed.

(** The invocations of a run come from discovered descriptors that reach
    the build. *)
Lemma runs_come_from_descriptors E p s c :
  In c (runs (since s (snd (build_helm_dependencies E p s)))) ->
  exists cf,
    In cf (rglob (fs s) p) /\
    reaches_build E (fs s) cf = true /\
    c = dependency_build (parent cf).
Proof.
  destruct (build_spec E p s)
    as (new & done & rest & Hl & Hext & Hruns & _).
  rewrite (extends_since _ _ _ Hext), Hruns. intros Hin.
  apply in_map_iff in Hin as (cf & <- & Hcf).
  apply filter_In in Hcf as [Hcf Hr].
  exists cf. split; [|split; [exact Hr | reflexivity]].
  rewrite Hl. apply in_or_app. auto.
Qed.

Lemma filter_at_most_one {A} (g : A -> bool) l :
  NoDup l ->
  (forall x y, In x l -> In y l -> g x = true -> g y = true -> x = y) ->
  List.length (filter g l) <= 1.
Proof.
  induction l as [|a l IH]; simpl; intros Hnd Huniq; [lia|].
  inversion Hnd as [|? ? Hna Hnd']; subst.
  destruct (g a) eqn:Hga.
  - rewrite filter_none; [simpl; lia|].
    intros y Hy. destruct (g y) eqn:Hgy; [|reflexivity].
    rewrite (Huniq a y) in Hna; auto. contradiction.
  - apply IH; auto.
Qed.

(* ===================================================================== *)
(** ** Further properties of [build_helm_dependencies] *)

(** X1: every step of [_build_chart_dependencies] that can fail sits
    inside its [try], so the only [Exception] it lets out is a
    [HelmException], which carries the error it wraps as its cause and
    names the chart directory; and the same holds of the loop over any
    list of descriptors. *)
Theorem descriptor_raises_only_HelmException E cf l s e :
  (fst (_build_chart_dependencies E cf s) = Raise e \/
   fst (for_each (_build_chart_dependencies E) l s) = Raise e) ->
  is_Exception e = true ->
  exn_class e = HelmException /\ exists cause, exn_cause e = Some cause.
Proof.
  intros Hr Hx.
  assert (Hcases :
    (exists msg e', @Raise unit e = Raise (Exc HelmException msg (Some e'))) \/
    (exists e', @Raise unit e = Raise e' /\ is_Exception e' = false)).
  { destruct Hr as [Hr|Hr].
    - destruct (build_one_result E cf s) as [H|H]; rewrite Hr in H;
        [discriminate | exact H].
    - destruct (for_each_result E l s) as [H|H]; rewrite Hr in H;
        [discriminate | exact H]. }
  destruct Hcases as [(msg & e' & H)|(e' & H & Hn)].
  - injection H as ->. simpl. eauto.
  - injection H as ->. congruence.
Qed.

Lemma descriptor_raises_only_HelmException_witness :
  fst (_build_chart_dependencies World.failing_helm ["repo"; "a"; "Chart.yaml"]
         (World.start World.repo2)) =
    Raise (Exc HelmException
             (failure_message ["repo"; "a"]
                (Exc HelmException "Dependency build failed" None))
             (Some (Exc HelmException "Dependency build failed" None))) /\
  exists cause,
    exn_cause
      (Exc HelmException
         (failure_message ["repo"; "a"]
            (Exc HelmException "Dependency build failed" None))
         (Some (Exc HelmException "Dependency build failed" None))) =
    Some cause.
Proof.
  assert (H : fst (_build_chart_dependencies World.failing_helm
                     ["repo"; "a"; "Chart.yaml"] (World.start World.repo2)) =
    Raise (Exc HelmException
             (failure_message ["repo"; "a"]
                (Exc HelmException "Dependency build failed" None))
             (Some (Exc HelmException "Dependency build failed" None))))
    by reflexivity.
  split; [exact H|].
  exact (proj2 (descriptor_raises_only_HelmException World.failing_helm
                  ["repo"; "a"; "Chart.yaml"] [] (World.start World.repo2) _
                  (or_introl H) eq_refl)).
Defined.

(** X2: a discovered [Chart.yaml] that cannot be read as text (it is a
    directory, or its bytes are not UTF-8) is not passed over: processing
    it raises the [HelmException] that wraps the read error, so the run
    as a whole raises, and no command is invoked in its directory. *)
Theorem unreadable_descriptor_is_fatal E p s cf e :
  In cf (rglob (fs s) p) ->
  fst (read_text cf s) = Raise e ->
  (forall s1, fs s1 = fs s ->
     _build_chart_dependencies E cf s1 =
       (Raise (Exc HelmException (failure_message (parent cf) e) (Some e)),
        emit (EvLog ERROR "Failed to build dependencies for chart at %s: %s"
                [APath (parent cf); AExn e]) s1)) /\
  (exists e', fst (build_helm_dependencies E p s) = Raise e') /\
  runs_in (parent cf) (since s (snd (build_helm_dependencies E p s))) = [].
Proof.
  intros Hin Hread.
  assert (Hone : forall s1, fs s1 = fs s ->
     _build_chart_dependencies E cf s1 =
       (Raise (Exc HelmException (failure_message (parent cf) e) (Some e)),
        emit (EvLog ERROR "Failed to build dependencies for chart at %s: %s"
                [APath (parent cf); AExn e]) s1)).
  { intros s1 Hfs.
    unfold _build_chart_dependencies, try_except, try_body, bind, read_text
      in *.
    rewrite Hfs.
    destruct (lookup (fs s) cf) as [[[t|]|es]|]; simpl in Hread;
      try discriminate; injection Hread as <-; reflexivity. }
  split; [exact Hone|]. split.
  - apply (build_fatal E p s cf); [|exact Hin].
    intros s1 Hfs. rewrite (Hone s1 Hfs). simpl. eauto.
  - apply (no_invocation_for_unreached E p s cf Hin).
    unfold reaches_build, parsed. unfold read_text in Hread.
    destruct (lookup (fs s) cf) as [[[t|]|es]|]; simpl in Hread;
      try discriminate; reflexivity.
Qed.

Lemma unreadable_descriptor_is_fatal_witness :
  In ["repo"; "Chart.yaml"]
     (rglob (fs (World.start Edge.dir_descriptor)) ["repo"]) /\
  fst (read_text ["repo"; "Chart.yaml"] (World.start Edge.dir_descriptor)) =
    Raise (Exc OSError "[Errno 21] Is a directory" None) /\
  exists e',
    fst (build_helm_dependencies Edge.tools ["repo"]
           (World.start Edge.dir_descriptor)) = Raise e'.
Proof.
  assert (H1 : In ["repo"; "Chart.yaml"]
                 (rglob (fs (World.start Edge.dir_descriptor)) ["repo"]))
    by (vm_compute; auto).
  assert (H2 : fst (read_text ["repo"; "Chart.yaml"]
                      (World.start Edge.dir_descriptor)) =
               Raise (Exc OSError "[Errno 21] Is a directory" None))
    by reflexivity.
  split; [exact H1|]. split; [exact H2|].
  exact (proj1 (proj2 (unreadable_descriptor_is_fatal Edge.tools ["repo"]
                         (World.start Edge.dir_descriptor) _ _ H1 H2))).
Defined.

(** X19: a discovered descriptor on which [yaml.safe_load] raises an
    [Exception] that is not a [yaml.YAMLError] (a [ValueError] for a
    date no calendar has, a [RecursionError] for nesting too deep) is
    not passed over as a parse failure: the first [except] clause does
    not match, the second wraps the error, so processing it raises the
    [HelmException], the run as a whole raises, and no command is
    invoked in its directory. *)
Theorem parse_error_outside_YAMLError_is_fatal E p s cf e :
  In cf (rglob (fs s) p) ->
  parsed E (fs s) cf = Some (Raise e) ->
  wrapped e = true ->
  (forall s1, fs s1 = fs s ->
     _build_chart_dependencies E cf s1 =
       (Raise (Exc HelmException (failure_message (parent cf) e) (Some e)),
        emit (EvLog ERROR "Failed to build dependencies for chart at %s: %s"
                [APath (parent cf); AExn e]) s1)) /\
  (exists e', fst (build_helm_dependencies E p s) = Raise e') /\
  runs_in (parent cf) (since s (snd (build_helm_dependencies E p s))) = [].
Proof.
  intros Hin Hparsed Hw. apply wrapped_inv in Hw as [Hy Hx].
  assert (Hone : forall s1, fs s1 = fs s ->
     _build_chart_dependencies E cf s1 =
       (Raise (Exc HelmException (failure_message (parent cf) e) (Some e)),
        emit (EvLog ERROR "Failed to build dependencies for chart at %s: %s"
                [APath (parent cf); AExn e]) s1)).
  { intros s1 Hfs. unfold parsed in Hparsed.
    unfold _build_chart_dependencies, try_except, try_body, bind, read_text,
      safe_load, handler.
    rewrite Hfs.
    destruct (lookup (fs s) cf) as [[[t|]|es]|]; try discriminate.
    injection Hparsed as ->. rewrite Hy, Hx. reflexivity. }
  split; [exact Hone|]. split.
  - apply (build_fatal E p s cf); [|exact Hin].
    intros s1 Hfs. rewrite (Hone s1 Hfs). simpl. eauto.
  - apply (no_invocation_for_unreached E p s cf Hin).
    unfold reaches_build. now rewrite Hparsed.
Qed.

Lemma parse_error_outside_YAMLError_is_fatal_witness :
  In ["repo"; "dated"; "Chart.yaml"]
     (rglob (fs (World.start Edge.dated)) ["repo"]) /\
  parsed Edge.dated_tools (fs (World.start Edge.dated))
    ["repo"; "dated"; "Chart.yaml"] = Some (Raise Edge.bad_date) /\
  wrapped Edge.bad_date = true /\
  exists e',
    fst (build_helm_dependencies Edge.dated_tools ["repo"]
           (World.start Edge.dated)) = Raise e'.
Proof.
  assert (H1 : In ["repo"; "dated"; "Chart.yaml"]
                 (rglob (fs (World.start Edge.dated)) ["repo"]))
    by (vm_compute; auto).
  assert (H2 : parsed Edge.dated_tools (fs (World.start Edge.dated))
                 ["repo"; "dated"; "Chart.yaml"] = Some (Raise Edge.bad_date))
    by reflexivity.
  assert (H3 : wrapped Edge.bad_date = true) by reflexivity.
  split; [exact H1|]. split; [exact H2|]. split; [exact H3|].
  exact (proj1 (proj2 (parse_error_outside_YAMLError_is_fatal Edge.dated_tools
                         ["repo"] (World.start Edge.dated) _ _ H1 H2 H3))).
Defined.

(** C4 (the code at the failing input): a [Chart.yaml] that says
    [created: 2001-13-45] fails to parse, PyYAML raising [ValueError];
    the parse failure is not [yaml.YAMLError], so the descriptor is not
    logged and skipped as the first [except] clause does for its
    sibling: [build_helm_dependencies] raises the [HelmException] that
    wraps the [ValueError], names the chart directory in an error
    record, and never reaches the umbrella chart discovered after it,
    which declares a dependency and gets no invocation. *)
Lemma descriptor_with_bad_date_aborts :
  rglob Edge.dated ["repo"] =
    [["repo"; "dated"; "Chart.yaml"]; ["repo"; "umbrella"; "Chart.yaml"]] /\
  parsed Edge.dated_tools Edge.dated ["repo"; "dated"; "Chart.yaml"] =
    Some (Raise (Exc ValueError "month must be in 1..12" None)) /\
  malformed Edge.dated_tools Edge.dated ["repo"; "dated"; "Chart.yaml"] = None /\
  declares_dependencies Edge.dated_tools Edge.dated
    ["repo"; "umbrella"; "Chart.yaml"] = true /\
  build_helm_dependencies Edge.dated_tools ["repo"] (World.start Edge.dated) =
    (Raise (Exc HelmException
              "Failed to build dependencies for chart at /repo/dated: month must be in 1..12"
              (Some (Exc ValueError "month must be in 1..12" None))),
     {| fs := Edge.dated;
        heap := fun _ => World.podinfo;
        trace :=
          [EvLog DEBUG "Found %d Chart.yaml files in %s" [AInt 2; APath ["repo"]];
           EvLog ERROR "Failed to build dependencies for chart at %s: %s"
             [APath ["repo"; "dated"];
              AExn (Exc ValueError "month must be in 1..12" None)]] |}) /\
  runs (since (World.start Edge.dated)
          (snd (build_helm_dependencies Edge.dated_tools ["repo"]
                  (World.start Edge.dated)))) = [].
Proof. repeat split; reflexivity. Qed.

(** X3: a descriptor whose [dependencies] is true-valued but has no
    length (a non-zero number, [true], a date) makes [len(dependencies)]
    raise inside the [try]: processing it raises the [HelmException]
    that wraps the [TypeError], the run as a whole raises, and no
    command is invoked in its directory. *)
Theorem unsized_dependencies_is_fatal E p s cf :
  In cf (rglob (fs s) p) ->
  unsized_dependencies E (fs s) cf = true ->
  (forall s1, fs s1 = fs s ->
     _build_chart_dependencies E cf s1 =
       (Raise (Exc HelmException (failure_message (parent cf) no_len)
                 (Some no_len)),
        emit (EvLog ERROR "Failed to build dependencies for chart at %s: %s"
                [APath (parent cf); AExn no_len]) s1)) /\
  (exists e', fst (build_helm_dependencies E p s) = Raise e') /\
  runs_in (parent cf) (since s (snd (build_helm_dependencies E p s))) = [].
Proof.
  intros Hin Hun.
  assert (Hone : forall s1, fs s1 = fs s ->
     _build_chart_dependencies E cf s1 =
       (Raise (Exc HelmException (failure_message (parent cf) no_len)
                 (Some no_len)),
        emit (EvLog ERROR "Failed to build dependencies for chart at %s: %s"
                [APath (parent cf); AExn no_len]) s1)).
  { intros s1 Hfs.
    unfold unsized_dependencies, parsed in Hun.
    unfold _build_chart_dependencies, try_except, try_body, bind, read_text,
      safe_load, len.
    rewrite Hfs.
    destruct (lookup (fs s) cf) as [[[t|]|es]|]; try discriminate.
    destruct (yaml_safe_load E t) as [[]|e']; try discriminate.
    apply andb_true_iff in Hun as [Ht Hl]. rewrite Ht. simpl.
    destruct (py_len (dict_get items "dependencies" (YList [])));
      [discriminate|reflexivity]. }
  split; [exact Hone|]. split.
  - apply (build_fatal E p s cf); [|exact Hin].
    intros s1 Hfs. rewrite (Hone s1 Hfs). simpl. eauto.
  - apply (no_invocation_for_unreached E p s cf Hin).
    unfold unsized_dependencies in Hun. unfold reaches_build.
    destruct (parsed E (fs s) cf) as [[[]|e']|]; try discriminate.
    apply andb_true_iff in Hun as [Ht Hl]. rewrite Ht. simpl.
    destruct (py_len (dict_get items "dependencies" (YList [])));
      [discriminate|reflexivity].
Qed.

Lemma unsized_dependencies_is_fatal_witness :
  In ["repo"; "Chart.yaml"] (rglob (fs (World.start Edge.numeric)) ["repo"]) /\
  unsized_dependencies Edge.tools (fs (World.start Edge.numeric))
    ["repo"; "Chart.yaml"] = true /\
  exists e',
    fst (build_helm_dependencies Edge.tools ["repo"]
           (World.start Edge.numeric)) = Raise e'.
Proof.
  assert (H1 : In ["repo"; "Chart.yaml"]
                 (rglob (fs (World.start Edge.numeric)) ["repo"]))
    by (vm_compute; auto).
  assert (H2 : unsized_dependencies Edge.tools (fs (World.start Edge.numeric))
                 ["repo"; "Chart.yaml"] = true) by reflexivity.
  split; [exact H1|]. split; [exact H2|].
  exact (proj1 (proj2 (unsized_dependencies_is_fatal Edge.tools ["repo"]
                         (World.start Edge.numeric) _ H1 H2))).
Defined.

Lemma passed_over_one E cf s :
  passed_over E (fs s) cf = true ->
  exists ev, _build_chart_dependencies E cf s = (Ok tt, emit ev s).
Proof.
  unfold passed_over, parsed, _build_chart_dependencies, try_except, try_body,
    bind, read_text, safe_load, handler.
  destruct (lookup (fs s) cf) as [[[t|]|es]|]; try discriminate.
  destruct (yaml_safe_load E t) as [v|e']; simpl.
  - destruct v; intros H; try (eexists; reflexivity).
    rewrite H. eexists; reflexivity.
  - intros ->. eexists; reflexivity.
Qed.

Lemma passed_over_not_reached E root cf :
  passed_over E root cf = true -> reaches_build E root cf = false.
Proof.
  unfold passed_over, reaches_build.
  destruct (parsed E root cf) as [[[]|e']|]; try discriminate; try reflexivity.
  intros H. apply negb_true_iff in H. now rewrite H.
Qed.

Lemma for_each_all_passed_over E l :
  forall s,
    (forall cf, In cf l -> passed_over E (fs s) cf = true) ->
    fst (for_each (_build_chart_dependencies E) l s) = Ok tt.
Proof.
  induction l as [|x l IH]; intros s Hall; simpl; [reflexivity|].
  unfold bind.
  destruct (passed_over_one E x s) as [ev ->]; [apply Hall; simpl; auto|].
  apply IH. intros cf Hcf. simpl. apply Hall. simpl; auto.
Qed.

(** X4: when every discovered descriptor is one the code passes over (it
    fails to parse, or is not a mapping, or has a [dependencies] that is
    absent or false-valued, such as [0], [false] or an empty string),
    whatever their mix and order, the run returns normally and invokes
    no command. *)
Theorem passed_over_descriptors_no_build E p s :
  (forall cf, In cf (rglob (fs s) p) -> passed_over E (fs s) cf = true) ->
  fst (build_helm_dependencies E p s) = Ok tt /\
  runs (since s (snd (build_helm_dependencies E p s))) = [].
Proof.
  intros Hall.
  destruct (build_spec E p s)
    as (new & done & rest & Hl & Hext & Hruns & _).
  rewrite (extends_since _ _ _ Hext).
  split.
  - destruct (rglob (fs s) p) as [|x l] eqn:Hrg.
    + unfold build_helm_dependencies. rewrite Hrg.
      destruct (negb (path_exists (fs s) p)); reflexivity.
    + rewrite build_unfold by (rewrite Hrg; discriminate).
      unfold bind, log. rewrite Hrg. apply for_each_all_passed_over.
      simpl fs. exact Hall.
  - rewrite Hruns, filter_none; [reflexivity|].
    intros y Hy. apply passed_over_not_reached, Hall.
    rewrite Hl. apply in_or_app. auto.
Qed.

Lemma passed_over_descriptors_no_build_witness :
  (forall cf, In cf (rglob (fs (World.start Edge.harmless)) ["repo"]) ->
     passed_over Edge.tools (fs (World.start Edge.harmless)) cf = true) /\
  fst (build_helm_dependencies Edge.tools ["repo"] (World.start Edge.harmless))
    = Ok tt /\
  runs (since (World.start Edge.harmless)
          (snd (build_helm_dependencies Edge.tools ["repo"]
                  (World.start Edge.harmless)))) = [].
Proof.
  assert (H : forall cf,
     In cf (rglob (fs (World.start Edge.harmless)) ["repo"]) ->
     passed_over Edge.tools (fs (World.start Edge.harmless)) cf = true).
  { intros cf Hcf. vm_compute in Hcf.
    destruct Hcf as [<-|[<-|[<-|[<-|[]]]]]; reflexivity. }
  split; [exact H|].
  exact (passed_over_descriptors_no_build Edge.tools ["repo"]
           (World.start Edge.harmless) H).
Defined.

(** X5: whatever the outcome of the run, no chart directory sees more
    than one invocation. *)
Theorem at_most_one_invocation_per_directory E p s d :
  List.length (runs_in d (since s (snd (build_helm_dependencies E p s)))) <= 1.
Proof.
  destruct (build_spec E p s)
    as (new & done & rest & Hl & Hext & Hruns & _).
  rewrite (extends_since _ _ _ Hext). unfold runs_in.
  rewrite Hruns, runs_in_map, length_map.
  assert (Hsub : forall y, In y done -> In y (rglob (fs s) p)).
  { intros y Hy. rewrite Hl. apply in_or_app. auto. }
  apply filter_at_most_one.
  - apply NoDup_filter, NoDup_prefix with rest.
    rewrite <- Hl. apply rglob_NoDup.
  - intros x y Hx Hy Hpx Hpy.
    apply filter_In in Hx as [Hx _]. apply filter_In in Hy as [Hy _].
    apply path_eqb_eq in Hpx, Hpy.
    apply (rglob_parent_inj (fs s) p); auto. congruence.
Qed.

(** X6: every command a run invokes is [helm dependency build], with
    [HelmException] as its error class, and its working directory holds
    a discovered [Chart.yaml] that is a readable file and parses to a
    mapping. *)
Theorem invocations_are_dependency_builds E p s c :
  In c (runs (since s (snd (build_helm_dependencies E p s)))) ->
  cmd c = ["helm"; "dependency"; "build"] /\
  exc c = HelmException /\
  exists cf text d,
    In cf (rglob (fs s) p) /\
    cwd c = parent cf /\
    lookup (fs s) cf = Some (File (Text text)) /\
    yaml_safe_load E text = Ok (YDict d).
Proof.
  intros Hin.
  destruct (runs_come_from_descriptors E p s c Hin) as (cf & Hcf & Hr & ->).
  split; [reflexivity|]. split; [reflexivity|].
  unfold reaches_build, parsed in Hr.
  destruct (lookup (fs s) cf) as [[[t|]|es]|] eqn:Hlk; try discriminate.
  destruct (yaml_safe_load E t) as [[]|e'] eqn:Hload; try discriminate.
  exists cf, t, items. repeat split; auto.
Qed.

Lemma invocations_are_dependency_builds_witness :
  In (dependency_build ["repo"; "charts"; "umbrella"])
     (runs (since (World.start World.repo)
              (snd (build_helm_dependencies World.tools ["repo"]
                      (World.start World.repo))))) /\
  cmd (dependency_build ["repo"; "charts"; "umbrella"]) =
    ["helm"; "dependency"; "build"].
Proof.
  assert (H : In (dependency_build ["repo"; "charts"; "umbrella"])
     (runs (since (World.start World.repo)
              (snd (build_helm_dependencies World.tools ["repo"]
                      (World.start World.repo))))))
    by (vm_compute; auto).
  split; [exact H|].
  exact (proj1 (invocations_are_dependency_builds World.tools ["repo"]
                  (World.start World.repo) _ H)).
Defined.

(** X7: a run never invokes a command outside the tree it was asked to
    search: every working directory is [local_path] or lies below it. *)
Theorem invocations_stay_below_local_path E p s c :
  In c (runs (since s (snd (build_helm_dependencies E p s)))) ->
  below p (cwd c).
Proof.
  intros Hin.
  destruct (runs_come_from_descriptors E p s c Hin) as (cf & Hcf & _ & ->).
  simpl. apply (rglob_below _ _ _ Hcf).
Qed.

Lemma invocations_stay_below_local_path_witness :
  In (dependency_build ["repo"; "charts"; "umbrella"])
     (runs (since (World.start World.repo)
              (snd (build_helm_dependencies World.tools ["repo"]
                      (World.start World.repo))))) /\
  below ["repo"] ["repo"; "charts"; "umbrella"].
Proof.
  assert (H : In (dependency_build ["repo"; "charts"; "umbrella"])
     (runs (since (World.start World.repo)
              (snd (build_helm_dependencies World.tools ["repo"]
                      (World.start World.repo))))))
    by (vm_compute; auto).
  split; [exact H|].
  exact (invocations_stay_below_local_path World.tools ["repo"]
           (World.start World.repo) _ H).
Defined.

(** X8: [build_helm_dependencies] keeps no record of what it has built:
    a second run over the same path, right after a first one that
    returned, invokes the same commands again when it returns too. *)
Theorem second_run_builds_again E p s :
  fst (build_helm_dependencies E p s) = Ok tt ->
  fst (build_helm_dependencies E p (snd (build_helm_dependencies E p s)))
    = Ok tt ->
  runs (since (snd (build_helm_dependencies E p s))
          (snd (build_helm_dependencies E p
                  (snd (build_helm_dependencies E p s))))) =
  runs (since s (snd (build_helm_dependencies E p s))).
Proof.
  intros Hok1 Hok2.
  destruct (build_spec E p s)
    as (new1 & done1 & rest1 & Hl1 & Hext1 & Hruns1 & _ & Hrest1 & _).
  set (s1 := snd (build_helm_dependencies E p s)) in *.
  destruct (build_spec E p s1)
    as (new2 & done2 & rest2 & Hl2 & Hext2 & Hruns2 & _ & Hrest2 & _).
  rewrite (extends_since _ _ _ Hext1), (extends_since _ _ _ Hext2).
  rewrite (Hrest1 Hok1), app_nil_r in Hl1.
  rewrite (Hrest2 Hok2), app_nil_r in Hl2.
  assert (Hfs : fs s1 = fs s) by apply Hext1.
  rewrite Hruns1, Hruns2, <- Hl1, <- Hl2, Hfs. reflexivity.
Qed.

Lemma second_run_builds_again_witness :
  fst (build_helm_dependencies World.tools ["repo"] (World.start World.repo))
    = Ok tt /\
  runs (since (snd (build_helm_dependencies World.tools ["repo"]
                      (World.start World.repo)))
          (snd (build_helm_dependencies World.tools ["repo"]
                  (snd (build_helm_dependencies World.tools ["repo"]
                          (World.start World.repo)))))) =
  runs (since (World.start World.repo)
          (snd (build_helm_dependencies World.tools ["repo"]
                  (World.start World.repo)))).
Proof.
  assert (H1 : fst (build_helm_dependencies World.tools ["repo"]
                      (World.start World.repo)) = Ok tt) by reflexivity.
  assert (H2 : fst (build_helm_dependencies World.tools ["repo"]
                      (snd (build_helm_dependencies World.tools ["repo"]
                              (World.start World.repo)))) = Ok tt)
    by reflexivity.
  split; [exact H1|].
  exact (second_run_builds_again World.tools ["repo"]
           (World.start World.repo) H1 H2).
Defined.

(** X9: an invocation that fails with an error that is not an
    [Exception] (a cancellation) is caught by neither [except] clause:
    the run raises that very error, unwrapped, and the failed invocation
    is the last event of the run, with no error record after it. *)
Theorem non_exception_passes_through E p s c e :
  In (EvRun c (Raise e)) (since s (snd (build_helm_dependencies E p s))) ->
  is_Exception e = false ->
  fst (build_helm_dependencies E p s) = Raise e /\
  exists pre,
    since s (snd (build_helm_dependencies E p s)) = pre ++ [EvRun c (Raise e)].
Proof.
  intros Hin Hx.
  destruct (rglob (fs s) p) as [|x l] eqn:Hrg.
  - exfalso. revert Hin. unfold build_helm_dependencies. rewrite Hrg.
    destruct (negb (path_exists (fs s) p)); simpl;
      (erewrite extends_since by trace_done);
      intros [H|[]]; discriminate.
  - revert Hin. rewrite build_unfold by (rewrite Hrg; discriminate).
    unfold bind, log. rewrite Hrg.
    set (s0 := emit _ s).
    destruct (for_each_unhandled E (x :: l) s0) as (new & Hext & Hun).
    assert (Hext0 : extends s s0
              ([] ++ [EvLog DEBUG "Found %d Chart.yaml files in %s"
                        [AInt (Z.of_nat (List.length (x :: l))); APath p]]))
      by (apply extends_emit, extends_refl).
    rewrite (extends_since _ _ _ (extends_trans _ _ _ _ _ Hext0 Hext)).
    simpl. intros [Hin|Hin]; [discriminate|].
    destruct (Hun _ _ Hin Hx) as (Hr & pre & ->).
    split; [exact Hr|]. now exists (EvLog DEBUG "Found %d Chart.yaml files in %s"
              [AInt (Z.of_nat (List.length (x :: l))); APath p] :: pre).
Qed.

Lemma non_exception_passes_through_witness :
  In (EvRun (dependency_build ["repo"; "a"])
        (Raise (Exc CancelledError "" None)))
     (since (World.start World.repo2)
        (snd (build_helm_dependencies Edge.cancelled ["repo"]
                (World.start World.repo2)))) /\
  is_Exception (Exc CancelledError "" None) = false /\
  fst (build_helm_dependencies Edge.cancelled ["repo"]
         (World.start World.repo2)) = Raise (Exc CancelledError "" None).
Proof.
  assert (H1 : In (EvRun (dependency_build ["repo"; "a"])
        (Raise (Exc CancelledError "" None)))
     (since (World.start World.repo2)
        (snd (build_helm_dependencies Edge.cancelled ["repo"]
                (World.start World.repo2)))))
    by (vm_compute; auto).
  assert (H2 : is_Exception (Exc CancelledError "" None) = false)
    by reflexivity.
  split; [exact H1|]. split; [exact H2|].
  exact (proj1 (non_exception_passes_through Edge.cancelled ["repo"]
                  (World.start World.repo2) _ _ H1 H2)).
Defined.

(** X10: in a run that returns, a discovered descriptor gets its
    invocation exactly when it is a mapping whose [dependencies] is
    true-valued and has a length; the value need not be a list, a
    non-empty string or mapping triggers the build as well. *)
Theorem invoked_iff_dependencies_truthy E p s cf :
  fst (build_helm_dependencies E p s) = Ok tt ->
  In cf (rglob (fs s) p) ->
  runs_in (parent cf) (since s (snd (build_helm_dependencies E p s))) =
    if reaches_build E (fs s) cf then [dependency_build (parent cf)] else [].
Proof.
  intros Hok Hin.
  destruct (build_spec E p s)
    as (new & done & rest & Hl & Hext & Hruns & _ & Hrest & _).
  rewrite (extends_since _ _ _ Hext). unfold runs_in. rewrite Hruns.
  rewrite (runs_in_prefix E (fs s) p done rest cf) by auto.
  rewrite (Hrest Hok), app_nil_r in Hl. rewrite Hl in Hin.
  destruct (in_dec path_eq_dec cf done) as [_|Hout]; [|contradiction].
  now rewrite andb_true_r.
Qed.

Lemma invoked_iff_dependencies_truthy_witness :
  fst (build_helm_dependencies Edge.tools ["repo"] (World.start Edge.stringly))
    = Ok tt /\
  In ["repo"; "Chart.yaml"] (rglob (fs (World.start Edge.stringly)) ["repo"]) /\
  declares_dependencies Edge.tools (fs (World.start Edge.stringly))
    ["repo"; "Chart.yaml"] = false /\
  runs_in ["repo"]
    (since (World.start Edge.stringly)
       (snd (build_helm_dependencies Edge.tools ["repo"]
               (World.start Edge.stringly)))) =
    [dependency_build ["repo"]].
Proof.
  assert (H1 : fst (build_helm_dependencies Edge.tools ["repo"]
                      (World.start Edge.stringly)) = Ok tt) by reflexivity.
  assert (H2 : In ["repo"; "Chart.yaml"]
                 (rglob (fs (World.start Edge.stringly)) ["repo"]))
    by (vm_compute; auto).
  split; [exact H1|]. split; [exact H2|]. split; [reflexivity|].
  exact (invoked_iff_dependencies_truthy Edge.tools ["repo"]
           (World.start Edge.stringly) ["repo"; "Chart.yaml"] H1 H2).
Defined.

(** What the log says about the way one descriptor ended: no error
    record when it ended normally, and the error record of its directory
    as the last event when it ended with the wrapping [HelmException]. *)
Lemma build_one_log E cf s :
  exists new,
    extends s (snd (_build_chart_dependencies E cf s)) new /\
    (fst (_build_chart_dependencies E cf s) = Ok tt ->
     forall fmt args, ~ In (EvLog ERROR fmt args) new) /\
    (forall msg e,
       fst (_build_chart_dependencies E cf s) =
         Raise (Exc HelmException msg (Some e)) ->
       msg = failure_message (parent cf) e /\
       exists pre,
         new = pre ++ [error_record (dependency_build (parent cf)) e]).
Proof.
  unfold _build_chart_dependencies, try_except, try_body, bind, read_text,
    safe_load, handler, len, run, log, raise, ret.
  repeat (split_case; simpl in *; try discriminate);
    repeat match goal with
           | H : (_, _) = (_, _) |- _ => inversion H; clear H; subst
           end;
    simpl in *;
    (eexists; split; [trace_done|]; simpl; split).
  all: try (intros Hok; discriminate Hok).
  all: try (intros _ fmt args Hin;
            repeat match goal with
                   | H : _ \/ _ |- _ => destruct H
                   | H : False |- _ => contradiction
                   | H : EvLog _ _ _ = EvLog _ _ _ |- _ => discriminate H
                   | H : EvRun _ _ = EvLog _ _ _ |- _ => discriminate H
                   end).
  all: intros msg e0 Hr; try discriminate Hr.
  all: inversion Hr; subst; clear Hr; simpl in *; try discriminate.
  all: split; [reflexivity|].
  all: first [ eexists []; reflexivity
             | eexists [_]; reflexivity
             | eexists [_; _]; reflexivity ].
Qed.

Lemma for_each_log E l :
  forall s,
    exists new,
      extends s (snd (for_each (_build_chart_dependencies E) l s)) new /\
      (fst (for_each (_build_chart_dependencies E) l s) = Ok tt ->
       forall fmt args, ~ In (EvLog ERROR fmt args) new) /\
      (forall msg e,
         fst (for_each (_build_chart_dependencies E) l s) =
           Raise (Exc HelmException msg (Some e)) ->
         exists cf pre,
           In cf l /\
           msg = failure_message (parent cf) e /\
           new = pre ++ [error_record (dependency_build (parent cf)) e]).
Proof.
  induction l as [|x l IH]; intros s; simpl.
  - exists []. split; [apply extends_refl|]. split.
    + intros _ fmt args [].
    + intros msg e H. discriminate.
  - unfold bind.
    destruct (build_one_log E x s) as (new1 & Hext1 & Hok1 & Hhelm1).
    destruct (_build_chart_dependencies E x s) as [[[]|ex] s1]; simpl in *.
    + destruct (IH s1) as (new2 & Hext2 & Hok2 & Hhelm2).
      exists (new1 ++ new2).
      split; [apply (extends_trans _ _ _ _ _ Hext1 Hext2)|]. split.
      * intros Hok fmt args Hin. apply in_app_or in Hin as [Hin|Hin].
        -- apply (Hok1 eq_refl fmt args Hin).
        -- apply (Hok2 Hok fmt args Hin).
      * intros msg e Hr.
        destruct (Hhelm2 msg e Hr) as (cf & pre & Hcf & Hmsg & ->).
        exists cf, (new1 ++ pre). split; [auto|]. split; [exact Hmsg|].
        now rewrite app_assoc.
    + exists new1. split; [exact Hext1|]. split; [discriminate|].
      intros msg e Hr. destruct (Hhelm1 msg e Hr) as (Hmsg & pre & ->).
      exists x, pre. auto.
Qed.

Lemma build_log E p s :
  exists new,
    extends s (snd (build_helm_dependencies E p s)) new /\
    (fst (build_helm_dependencies E p s) = Ok tt ->
     forall fmt args, ~ In (EvLog ERROR fmt args) new) /\
    (forall msg e,
       fst (build_helm_dependencies E p s) =
         Raise (Exc HelmException msg (Some e)) ->
       exists cf pre,
         In cf (rglob (fs s) p) /\
         msg = failure_message (parent cf) e /\
         new = pre ++ [error_record (dependency_build (parent cf)) e]).
Proof.
  destruct (rglob (fs s) p) as [|x l] eqn:Hrg.
  - unfold build_helm_dependencies. rewrite Hrg.
    destruct (negb (path_exists (fs s) p)); simpl;
      (eexists; split; [trace_done|]; split;
       [intros _ fmt args [H|[]]; discriminate | intros msg e H; discriminate]).
  - rewrite build_unfold by (rewrite Hrg; discriminate).
    unfold bind, log. rewrite Hrg.
    set (s0 := emit _ s).
    destruct (for_each_log E (x :: l) s0) as (new & Hext & Hok & Hhelm).
    assert (Hext0 : extends s s0
              ([] ++ [EvLog DEBUG "Found %d Chart.yaml files in %s"
                        [AInt (Z.of_nat (List.length (x :: l))); APath p]]))
      by (apply extends_emit, extends_refl).
    eexists. split; [exact (extends_trans _ _ _ _ _ Hext0 Hext)|]. split.
    + intros H fmt args [Hin|Hin]; [discriminate|].
      apply (Hok H fmt args Hin).
    + intros msg e Hr. destruct (Hhelm msg e Hr) as (cf & pre & Hcf & Hmsg & ->).
      exists cf. eexists (_ :: pre). split; [exact Hcf|]. split; [exact Hmsg|].
      reflexivity.
Qed.

(** X15: a run that returns normally has written no error record to the
    log. *)
Theorem normal_return_logs_no_error E p s fmt args :
  fst (build_helm_dependencies E p s) = Ok tt ->
  ~ In (EvLog ERROR fmt args)
       (since s (snd (build_helm_dependencies E p s))).
Proof.
  intros Hok. destruct (build_log E p s) as (new & Hext & Hno & _).
  rewrite (extends_since _ _ _ Hext). apply (Hno Hok).
Qed.

Lemma normal_return_logs_no_error_witness :
  fst (build_helm_dependencies World.tools ["repo"] (World.start World.repo3))
    = Ok tt /\
  ~ In (EvLog ERROR "Failed to build dependencies for chart at %s: %s" [])
       (since (World.start World.repo3)
          (snd (build_helm_dependencies World.tools ["repo"]
                  (World.start World.repo3)))).
Proof.
  assert (H : fst (build_helm_dependencies World.tools ["repo"]
                     (World.start World.repo3)) = Ok tt) by reflexivity.
  split; [exact H|].
  exact (normal_return_logs_no_error World.tools ["repo"]
           (World.start World.repo3) _ _ H).
Defined.

(** X16: when a run raises the [HelmException], the log and the exception
    agree: the last event of the run is the error record for the chart
    directory of a discovered descriptor, it carries the wrapped error,
    and the message of the exception names that directory and that
    error. *)
Theorem raised_error_is_logged E p s msg e :
  fst (build_helm_dependencies E p s) = Raise (Exc HelmException msg (Some e)) ->
  exists cf pre,
    In cf (rglob (fs s) p) /\
    msg = failure_message (parent cf) e /\
    since s (snd (build_helm_dependencies E p s)) =
      pre ++ [EvLog ERROR "Failed to build dependencies for chart at %s: %s"
                [APath (parent cf); AExn e]].
Proof.
  intros Hr. destruct (build_log E p s) as (new & Hext & _ & Hhelm).
  rewrite (extends_since _ _ _ Hext). apply (Hhelm msg e Hr).
Qed.

Lemma raised_error_is_logged_witness :
  fst (build_helm_dependencies Edge.tools ["repo"] (World.start Edge.numeric)) =
    Raise (Exc HelmException (failure_message ["repo"] no_len) (Some no_len)) /\
  exists cf pre,
    In cf (rglob (fs (World.start Edge.numeric)) ["repo"]) /\
    failure_message ["repo"] no_len = failure_message (parent cf) no_len /\
    since (World.start Edge.numeric)
      (snd (build_helm_dependencies Edge.tools ["repo"]
              (World.start Edge.numeric))) =
      pre ++ [EvLog ERROR "Failed to build dependencies for chart at %s: %s"
                [APath (parent cf); AExn no_len]].
Proof.
  assert (H : fst (build_helm_dependencies Edge.tools ["repo"]
                     (World.start Edge.numeric)) =
    Raise (Exc HelmException (failure_message ["repo"] no_len) (Some no_len)))
    by reflexivity.
  split; [exact H|].
  exact (raised_error_is_logged Edge.tools ["repo"] (World.start Edge.numeric)
           _ _ H).
Defined.

Lemma nothing_to_search_rglob root p :
  nothing_to_search root p = true -> rglob root p = [].
Proof.
  unfold nothing_to_search, rglob.
  destruct (lookup root p) as [n|]; [|reflexivity].
  intros H. apply negb_true_iff in H. now rewrite (select_from_empty n p H).
Qed.

Lemma build_no_descriptors E p s :
  rglob (fs s) p = [] ->
  fst (build_helm_dependencies E p s) = Ok tt /\
  runs (since s (snd (build_helm_dependencies E p s))) = [].
Proof.
  intros Hrg. unfold build_helm_dependencies. rewrite Hrg.
  destruct (negb (path_exists (fs s) p)); simpl;
    (split; [reflexivity|]);
    erewrite extends_since by trace_done; reflexivity.
Qed.

(* ===================================================================== *)
(** ** Further properties of [fetch_oci] *)

(** [fetch_oci] once the awaited pull has yielded its list: its outcome
    and its trace are those of the dependency build over the pulled
    tree. *)
Lemma fetch_oci_after_pull E obj s n r res fetched :
  let o := heap s obj in
  let dest := repo_path E (OCIRepository.url o) (version E o) in
  let sp := after_pull dest (versioned_url E o) (Ok res) res fetched
              (at_pull o n s) in
  mkdir_p (fs s) dest = Some n ->
  oras_pull E (versioned_url E o) dest (at_pull o n s) = (r, fetched) ->
  await_pulled r = Ok res ->
  snd (fetch_oci E obj s) = snd (build_helm_dependencies E dest sp) /\
  fst (fetch_oci E obj s) =
    match fst (build_helm_dependencies E dest sp) with
    | Ok _ => Ok {| OCIArtifact.url := OCIRepository.url o;
                    OCIArtifact.ref := OCIRepository.ref o;
                    OCIArtifact.local_path := dest |}
    | Raise e => Raise e
    end /\
  since s (snd (fetch_oci E obj s)) =
    [EvLog INFO "Fetching OCI repository %s" [AObj o];
     EvPull (versioned_url E o) dest (Ok res);
     EvLog DEBUG "Downloaded resources: %s" [AStrs res];
     EvLog DEBUG "Checking for Helm charts with dependencies in %s"
       [APath dest]]
    ++ since sp (snd (build_helm_dependencies E dest sp)).
Proof.
  intros o dest sp Hn Hpull Hawait.
  apply await_pulled_ok in Hawait. subst r.
  pose proof (fetch_oci_heap E obj s) as Hheap.
  rewrite fetch_oci_unfold in *. fold o dest in Hheap |- *.
  cbv zeta in *. rewrite Hn, Hpull in *.
  simpl fst in *. simpl snd in *. simpl await_pulled in *.
  simpl pull_outcome in *. fold sp in Hheap |- *.
  destruct (build_spec E dest sp) as (new & done & rest & _ & Hext & _).
  rewrite (extends_since _ _ _ Hext).
  destruct (build_helm_dependencies E dest sp) as [[[]|e] s'];
    simpl in *; (split; [reflexivity|]); (split; [try rewrite Hheap; reflexivity|]);
    apply since_app; destruct Hext as (_ & _ & ->);
    unfold sp, after_pull, at_pull; simpl; now rewrite <- !app_assoc.
Qed.

(** A [fetch_oci] whose awaited pull raises: it raises that error, and
    its trace ends with the pull. *)
Lemma fetch_oci_when_await_fails E obj s n r e fetched :
  mkdir_p (fs s)
    (repo_path E (OCIRepository.url (heap s obj)) (version E (heap s obj)))
    = Some n ->
  oras_pull E (versioned_url E (heap s obj))
    (repo_path E (OCIRepository.url (heap s obj)) (version E (heap s obj)))
    (at_pull (heap s obj) n s) = (r, fetched) ->
  await_pulled r = Raise e ->
  fst (fetch_oci E obj s) = Raise e /\
  fs (snd (fetch_oci E obj s)) = fetched /\
  since s (snd (fetch_oci E obj s)) =
    [EvLog INFO "Fetching OCI repository %s" [AObj (heap s obj)];
     EvPull (versioned_url E (heap s obj))
       (repo_path E (OCIRepository.url (heap s obj)) (version E (heap s obj)))
       (pull_outcome r)].
Proof.
  intros Hn Hpull Hawait.
  rewrite fetch_oci_unfold. cbv zeta. rewrite Hn, Hpull.
  simpl fst. simpl snd. rewrite Hawait.
  split; [reflexivity|]. split; [reflexivity|]. simpl snd.
  apply since_app. unfold at_pull; simpl. now rewrite <- !app_assoc.
Qed.

(** X11: when the pull fails, [fetch_oci] raises the pull's own error,
    unwrapped; all it has done is announce the fetch and attempt the
    pull, so no command has been invoked and no artifact is returned. *)
Theorem fetch_oci_pull_failure E obj s n e fetched :
  mkdir_p (fs s)
    (repo_path E (OCIRepository.url (heap s obj)) (version E (heap s obj)))
    = Some n ->
  oras_pull E (versioned_url E (heap s obj))
    (repo_path E (OCIRepository.url (heap s obj)) (version E (heap s obj)))
    (at_pull (heap s obj) n s) = (Raise e, fetched) ->
  fst (fetch_oci E obj s) = Raise e /\
  since s (snd (fetch_oci E obj s)) =
    [EvLog INFO "Fetching OCI repository %s" [AObj (heap s obj)];
     EvPull (versioned_url E (heap s obj))
       (repo_path E (OCIRepository.url (heap s obj)) (version E (heap s obj)))
       (Raise e)] /\
  runs (since s (snd (fetch_oci E obj s))) = [].
Proof.
  intros Hn Hpull.
  destruct (fetch_oci_when_await_fails E obj s n (Raise e) e fetched Hn Hpull
              eq_refl) as (Hr & _ & Hs).
  simpl pull_outcome in Hs.
  split; [exact Hr|]. split; [exact Hs | now rewrite Hs].
Qed.

Lemma fetch_oci_pull_failure_witness :
  mkdir_p World.cached World.podinfo_path = Some World.cached /\
  fst (fetch_oci Edge.pull_fails 0 (World.start World.cached)) =
    Raise (Exc ValueError "manifest unknown" None) /\
  runs (since (World.start World.cached)
          (snd (fetch_oci Edge.pull_fails 0 (World.start World.cached)))) = [].
Proof.
  assert (H1 : mkdir_p (fs (World.start World.cached))
    (repo_path Edge.pull_fails
       (OCIRepository.url (heap (World.start World.cached) 0))
       (version Edge.pull_fails (heap (World.start World.cached) 0)))
    = Some World.cached) by reflexivity.
  assert (H2 : oras_pull Edge.pull_fails
    (versioned_url Edge.pull_fails (heap (World.start World.cached) 0))
    (repo_path Edge.pull_fails
       (OCIRepository.url (heap (World.start World.cached) 0))
       (version Edge.pull_fails (heap (World.start World.cached) 0)))
    (at_pull (heap (World.start World.cached) 0) World.cached
       (World.start World.cached)) =
    (Raise (Exc ValueError "manifest unknown" None), World.cached))
    by reflexivity.
  split; [exact H1|].
  destruct (fetch_oci_pull_failure Edge.pull_fails 0 (World.start World.cached)
              _ _ _ H1 H2) as (Hr & _ & Hruns).
  split; [exact Hr | exact Hruns].
Defined.

(** X12: a dependency build that fails inside [fetch_oci] with an error
    the handler wraps makes [fetch_oci] raise that [HelmException]; no
    artifact is returned. *)
Theorem fetch_oci_build_failure E obj s c e :
  In (EvRun c (Raise e)) (since s (snd (fetch_oci E obj s))) ->
  wrapped e = true ->
  fst (fetch_oci E obj s) =
    Raise (Exc HelmException (failure_message (cwd c) e) (Some e)).
Proof.
  intros Hin Hw.
  destruct (mkdir_p (fs s)
    (repo_path E (OCIRepository.url (heap s obj)) (version E (heap s obj))))
    as [n|] eqn:Hn.
  - destruct (oras_pull E (versioned_url E (heap s obj))
      (repo_path E (OCIRepository.url (heap s obj)) (version E (heap s obj)))
      (at_pull (heap s obj) n s)) as [r fetched] eqn:Hpull.
    destruct (await_pulled r) as [res|e'] eqn:Hawait.
    + destruct (fetch_oci_after_pull E obj s n r res fetched Hn Hpull Hawait)
        as (_ & Hr & Hs).
      rewrite Hs in Hin. simpl in Hin.
      destruct Hin as [H|[H|[H|[H|Hin]]]]; try discriminate.
      match type of Hin with
      | In _ (since ?sp (snd (build_helm_dependencies E ?d ?sp))) =>
          destruct (build_spec E d sp)
            as (new & done & rest & _ & Hext & _ & _ & _ & Hfail);
          rewrite (extends_since _ _ _ Hext) in Hin;
          destruct (Hfail _ _ Hin Hw) as (Hb & _)
      end.
      rewrite Hr, Hb. reflexivity.
    + destruct (fetch_oci_when_await_fails E obj s n r e' fetched Hn Hpull
                  Hawait) as (_ & _ & Hs).
      rewrite Hs in Hin. simpl in Hin.
      destruct Hin as [H|[H|[]]]; discriminate.
  - exfalso. revert Hin. rewrite fetch_oci_unfold. cbv zeta. rewrite Hn.
    simpl. rewrite (since_app s s []) by now rewrite app_nil_r.
    intros [].
Qed.

Lemma fetch_oci_build_failure_witness :
  In (EvRun (dependency_build (World.podinfo_path ++ ["umbrella"]))
        (Raise (Exc HelmException "Dependency build failed" None)))
     (since (World.start World.repo)
        (snd (fetch_oci World.failing_helm 0 (World.start World.repo)))) /\
  wrapped (Exc HelmException "Dependency build failed" None) = true /\
  fst (fetch_oci World.failing_helm 0 (World.start World.repo)) =
    Raise (Exc HelmException
             (failure_message (World.podinfo_path ++ ["umbrella"])
                (Exc HelmException "Dependency build failed" None))
             (Some (Exc HelmException "Dependency build failed" None))).
Proof.
  assert (H1 : In (EvRun (dependency_build (World.podinfo_path ++ ["umbrella"]))
        (Raise (Exc HelmException "Dependency build failed" None)))
     (since (World.start World.repo)
        (snd (fetch_oci World.failing_helm 0 (World.start World.repo)))))
    by (vm_compute; auto 10).
  assert (H2 : wrapped (Exc HelmException "Dependency build failed" None) = true)
    by reflexivity.
  split; [exact H1|]. split; [exact H2|].
  exact (fetch_oci_build_failure World.failing_helm 0 (World.start World.repo)
           _ _ H1 H2).
Defined.

(** X13: every command [fetch_oci] invokes is [helm dependency build]
    run in the destination directory the cache assigned or below it. *)
Theorem fetch_oci_builds_below_destination E obj s c :
  In c (runs (since s (snd (fetch_oci E obj s)))) ->
  cmd c = ["helm"; "dependency"; "build"] /\
  below (repo_path E (OCIRepository.url (heap s obj)) (version E (heap s obj)))
        (cwd c).
Proof.
  intros Hin.
  destruct (mkdir_p (fs s)
    (repo_path E (OCIRepository.url (heap s obj)) (version E (heap s obj))))
    as [n|] eqn:Hn.
  - destruct (oras_pull E (versioned_url E (heap s obj))
      (repo_path E (OCIRepository.url (heap s obj)) (version E (heap s obj)))
      (at_pull (heap s obj) n s)) as [r fetched] eqn:Hpull.
    destruct (await_pulled r) as [res|e'] eqn:Hawait.
    + destruct (fetch_oci_after_pull E obj s n r res fetched Hn Hpull Hawait)
        as (_ & _ & Hs).
      rewrite Hs in Hin. simpl in Hin.
      destruct (runs_come_from_descriptors E _ _ c Hin) as (cf & Hcf & _ & ->).
      split; [reflexivity|]. simpl. apply (rglob_below _ _ _ Hcf).
    + destruct (fetch_oci_when_await_fails E obj s n r e' fetched Hn Hpull
                  Hawait) as (_ & _ & Hs).
      rewrite Hs in Hin. contradiction.
  - exfalso. revert Hin. rewrite fetch_oci_unfold. cbv zeta. rewrite Hn.
    simpl. rewrite (since_app s s []) by now rewrite app_nil_r.
    intros [].
Qed.

Lemma fetch_oci_builds_below_destination_witness :
  In (dependency_build (World.podinfo_path ++ ["umbrella"]))
     (runs (since (World.start World.repo)
              (snd (fetch_oci World.tools 0 (World.start World.repo))))) /\
  below World.podinfo_path (World.podinfo_path ++ ["umbrella"]).
Proof.
  assert (H : In (dependency_build (World.podinfo_path ++ ["umbrella"]))
     (runs (since (World.start World.repo)
              (snd (fetch_oci World.tools 0 (World.start World.repo))))))
    by (vm_compute; auto).
  split; [exact H|].
  exact (proj2 (fetch_oci_builds_below_destination World.tools 0
                  (World.start World.repo) _ H)).
Defined.

(** X14: when the call of the client's [pull] hands back an awaitable
    that yields the list of files, and the pulled tree holds no
    [Chart.yaml] at the destination, [fetch_oci] returns the artifact
    without invoking any command. *)
Theorem fetch_oci_without_charts E obj s n res fetched :
  mkdir_p (fs s)
    (repo_path E (OCIRepository.url (heap s obj)) (version E (heap s obj)))
    = Some n ->
  oras_pull E (versioned_url E (heap s obj))
    (repo_path E (OCIRepository.url (heap s obj)) (version E (heap s obj)))
    (at_pull (heap s obj) n s) = (Ok (Awaitable (Ok res)), fetched) ->
  nothing_to_search fetched
    (repo_path E (OCIRepository.url (heap s obj)) (version E (heap s obj)))
    = true ->
  fst (fetch_oci E obj s) =
    Ok {| OCIArtifact.url := OCIRepository.url (heap s obj);
          OCIArtifact.ref := OCIRepository.ref (heap s obj);
          OCIArtifact.local_path :=
            repo_path E (OCIRepository.url (heap s obj))
              (version E (heap s obj)) |} /\
  runs (since s (snd (fetch_oci E obj s))) = [].
Proof.
  intros Hn Hpull Hnone.
  destruct (fetch_oci_after_pull E obj s n _ res fetched Hn Hpull eq_refl)
    as (_ & Hr & Hs).
  rewrite Hr, Hs. simpl runs.
  match goal with
  | |- context [build_helm_dependencies E ?d ?sp] =>
      assert (Hnone' : rglob (fs sp) d = [])
        by (apply nothing_to_search_rglob; exact Hnone);
      destruct (build_no_descriptors E d sp Hnone') as (Hok & Hruns)
  end.
  rewrite Hok, Hruns. auto.
Qed.

Lemma fetch_oci_without_charts_witness :
  mkdir_p World.repo World.podinfo_path <> None /\
  nothing_to_search Edge.manifests World.podinfo_path = true /\
  fst (fetch_oci Edge.tools 0 (World.start World.repo)) =
    Ok {| OCIArtifact.url := OCIRepository.url World.podinfo;
          OCIArtifact.ref := OCIRepository.ref World.podinfo;
          OCIArtifact.local_path := World.podinfo_path |} /\
  runs (since (World.start World.repo)
          (snd (fetch_oci Edge.tools 0 (World.start World.repo)))) = [].
Proof.
  destruct (mkdir_p (fs (World.start World.repo))
    (repo_path Edge.tools
       (OCIRepository.url (heap (World.start World.repo) 0))
       (version Edge.tools (heap (World.start World.repo) 0))))
    as [n|] eqn:H1; [|vm_compute in H1; discriminate].
  assert (H2 : oras_pull Edge.tools
    (versioned_url Edge.tools (heap (World.start World.repo) 0))
    (repo_path Edge.tools
       (OCIRepository.url (heap (World.start World.repo) 0))
       (version Edge.tools (heap (World.start World.repo) 0)))
    (at_pull (heap (World.start World.repo) 0) n (World.start World.repo)) =
    (Ok (Awaitable (Ok ["deployment.yaml"])), Edge.manifests)) by reflexivity.
  assert (H3 : nothing_to_search Edge.manifests
    (repo_path Edge.tools
       (OCIRepository.url (heap (World.start World.repo) 0))
       (version Edge.tools (heap (World.start World.repo) 0))) = true)
    by reflexivity.
  split; [vm_compute; discriminate|]. split; [exact H3|].
  exact (fetch_oci_without_charts Edge.tools 0 (World.start World.repo)
           _ _ _ H1 H2 H3).
Defined.

(** X18: with a client whose [pull] is an ordinary method that returns
    the list of files (the synchronous client), the pull is made and
    then the [await] on its value raises [TypeError]: [fetch_oci]
    raises that error, unwrapped, with the pulled tree left in place,
    no command invoked and no artifact returned. *)
Theorem fetch_oci_plain_pull_is_fatal E obj s n res fetched :
  mkdir_p (fs s)
    (repo_path E (OCIRepository.url (heap s obj)) (version E (heap s obj)))
    = Some n ->
  oras_pull E (versioned_url E (heap s obj))
    (repo_path E (OCIRepository.url (heap s obj)) (version E (heap s obj)))
    (at_pull (heap s obj) n s) = (Ok (Plain res), fetched) ->
  fst (fetch_oci E obj s) = Raise not_awaitable /\
  fs (snd (fetch_oci E obj s)) = fetched /\
  since s (snd (fetch_oci E obj s)) =
    [EvLog INFO "Fetching OCI repository %s" [AObj (heap s obj)];
     EvPull (versioned_url E (heap s obj))
       (repo_path E (OCIRepository.url (heap s obj)) (version E (heap s obj)))
       (Ok res)] /\
  runs (since s (snd (fetch_oci E obj s))) = [].
Proof.
  intros Hn Hpull.
  destruct (fetch_oci_when_await_fails E obj s n (Ok (Plain res)) not_awaitable
              fetched Hn Hpull eq_refl) as (Hr & Hfs & Hs).
  simpl pull_outcome in Hs.
  split; [exact Hr|]. split; [exact Hfs|].
  split; [exact Hs | now rewrite Hs].
Qed.

Lemma fetch_oci_plain_pull_is_fatal_witness :
  mkdir_p World.cached World.podinfo_path = Some World.cached /\
  fst (fetch_oci Edge.sync_client 0 (World.start World.cached)) =
    Raise not_awaitable /\
  pulls (since (World.start World.cached)
           (snd (fetch_oci Edge.sync_client 0 (World.start World.cached)))) =
    [(versioned_url Edge.sync_client World.podinfo, World.podinfo_path)] /\
  runs (since (World.start World.cached)
          (snd (fetch_oci Edge.sync_client 0 (World.start World.cached)))) = [].
Proof.
  assert (H1 : mkdir_p (fs (World.start World.cached))
    (repo_path Edge.sync_client
       (OCIRepository.url (heap (World.start World.cached) 0))
       (version Edge.sync_client (heap (World.start World.cached) 0)))
    = Some World.cached) by reflexivity.
  assert (H2 : oras_pull Edge.sync_client
    (versioned_url Edge.sync_client (heap (World.start World.cached) 0))
    (repo_path Edge.sync_client
       (OCIRepository.url (heap (World.start World.cached) 0))
       (version Edge.sync_client (heap (World.start World.cached) 0)))
    (at_pull (heap (World.start World.cached) 0) World.cached
       (World.start World.cached)) =
    (Ok (Plain ["Chart.yaml"]), World.cached))
    by reflexivity.
  split; [exact H1|].
  destruct (fetch_oci_plain_pull_is_fatal Edge.sync_client 0
              (World.start World.cached) _ _ _ H1 H2)
    as (Hr & _ & Hs & Hruns).
  split; [exact Hr|]. split; [rewrite Hs; reflexivity | exact Hruns].
Defined.
